(** * Managed records: paginated retrieval and response transformation

    A shallow embedding of [src/api/managed-records.js]: the option
    resolution of [RequestHandler], the promise chains of [request],
    [peek], [requestPages] and [retrieve], and the record transformation
    of [ResponseHandler], with the properties of the specification that
    concern them.

    Conventions of the embedding.
    - JavaScript values are the inductive [value].  A number is an integer
      [Z]: the development covers the integer-valued numbers on which the
      source's [*], [-], [+] and [parseInt] are exact (magnitudes below
      2^53); fractions, NaN and the infinities are not represented.
    - Whatever is thrown, or rejects a promise, is an error object: the
      runtime, the fetch collaborator and [new Error] produce no other.
    - An object is a finite map from property names to values; an array
      carries its elements and, besides, its named properties (the source
      attaches [previousPage] and [nextPage] to the response array).
    - The module is strict-mode code (it is an ES module), so a property
      assignment on a primitive throws a [TypeError].
    - A function that may throw returns a [completion]; a promise is the
      completion it settles with, together with the effects of the chain
      that produced it.
    - Objects the source mutates in place (the caller's [options], the
      records of a response) are passed and returned explicitly. *)

From stdpp Require Import base option strings pretty list list_monad gmap fin_maps.
From Stdlib Require Import ZArith Lia.

Set Warnings "-register-all".
Local Open Scope Z_scope.

(** ** Values *)

Inductive value : Type :=
| VUndefined
| VNull
| VBool (b : bool)
| VNum (n : Z)
| VStr (s : string)
| VObj (props : gmap string value)
| VArr (elems : list value) (props : gmap string value).

(** A plain object, as the caller's [options] and each record are. *)
Abbreviation object := (gmap string value).

(** An error object; only its [message] is ever read by the source, and the
    message of an error raised by the runtime is engine-specific, so the
    errors are kept by kind. *)
Inductive error : Type :=
| Error (message : string)
| TypeError
| SyntaxError.

(** The completion of a computation: a normal return or a throw.  A promise
    is fulfilled by [Return] and rejected by [Throw]. *)
Inductive completion (A : Type) : Type :=
| Return (a : A)
| Throw (e : error).
Arguments Return {A} a.
Arguments Throw {A} e.

Global Instance completion_ret : MRet completion := λ A, Return.
Global Instance completion_bind : MBind completion := λ A B f c,
  match c with
  | Return a => f a
  | Throw e => Throw e
  end.
Global Instance completion_fmap : FMap completion := λ A B f c,
  match c with
  | Return a => Return (f a)
  | Throw e => Throw e
  end.

(** ** The operators of the language the source uses *)

(** ToBoolean. *)
Definition truthy (v : value) : bool :=
  match v with
  | VUndefined | VNull => false
  | VBool b => b
  | VNum n => negb (n =? 0)
  | VStr s => negb (String.eqb s "")
  | VObj _ | VArr _ _ => true
  end.

(** [a || b]. *)
Definition js_or (a b : value) : value := if truthy a then a else b.

(** [parseInt] applied to a number prints it and reads the digits back: the
    identity on the integers of the embedding. *)
Definition parseInt (n : Z) : Z := n.

(** ToNumber, where its result is an integer: [None] stands for an operand
    whose conversion leaves the numbers of the embedding (undefined gives
    NaN; strings and objects are parsed by the runtime). *)
Definition to_number (v : value) : option Z :=
  match v with
  | VNum n => Some n
  | VBool b => Some (Z.b2z b)
  | VNull => Some 0
  | VUndefined | VStr _ | VObj _ | VArr _ _ => None
  end.

(** [a - b]. *)
Definition js_sub (a b : value) : option value :=
  x ← to_number a; y ← to_number b; Some (VNum (x - y)).

(** [a + b], on operands that are not strings or objects (for those [+]
    concatenates, which the embedding leaves out). *)
Definition js_add (a b : value) : option value :=
  x ← to_number a; y ← to_number b; Some (VNum (x + y)).

(** [v === s] for a string literal [s]. *)
Definition strict_eq_str (v : value) (s : string) : bool :=
  match v with
  | VStr t => String.eqb t s
  | _ => false
  end.

(** [l.includes(v)] for an array [l] of string literals. *)
Definition includes (l : list string) (v : value) : bool :=
  match v with
  | VStr s => existsb (String.eqb s) l
  | _ => false
  end.

(** [o.k] on an object. *)
Definition prop (o : object) (k : string) : value := default VUndefined (o !! k).

(** [v.k] on any value, for the property names the source reads ([length]
    and own data properties; no inherited property is read). *)
Definition get (v : value) (k : string) : completion value :=
  match v with
  | VUndefined | VNull => Throw TypeError
  | VBool _ | VNum _ => Return VUndefined
  | VStr s =>
      Return (if String.eqb k "length" then VNum (Z.of_nat (String.length s))
              else VUndefined)
  | VObj props => Return (prop props k)
  | VArr elems props =>
      Return (if String.eqb k "length" then VNum (Z.of_nat (length elems))
              else prop props k)
  end.

(** [v.k = x] in strict mode; returns the object after the assignment. *)
Definition assign (v : value) (k : string) (x : value) : completion value :=
  match v with
  | VObj props => Return (VObj (<[k := x]> props))
  | VArr elems props => Return (VArr elems (<[k := x]> props))
  | VUndefined | VNull | VBool _ | VNum _ | VStr _ => Throw TypeError
  end.

(** A parameter declared with a default ([response = []], [page = 1]): the
    default replaces [undefined] only. *)
Definition default_arg (d v : value) : value :=
  match v with
  | VUndefined => d
  | _ => v
  end.

(** ** Constants *)

Definition window_path : string := "http://localhost:3000/records".

Record request_defaults : Type := {
  page : Z;
  colors : value;
  limit : Z
}.

Definition defaultRequestOptions : request_defaults :=
  {| page := 1; colors := VArr [] ∅; limit := 10 |}.

Definition primaryColors : list string := ["red"; "blue"; "yellow"].

(** ** Pre-API transforms: [RequestHandler] *)

Definition calculateOffset (page limit : Z) : Z := page * limit - limit.

Definition resolveLimit : Z := limit defaultRequestOptions.

(** [this.options] is the object handed to [resolvePayload]; the match on
    [VNum] is the test ['number' === typeof this.options.page]. *)
Definition resolveOffset (options : object) : Z :=
  let page :=
    match prop options "page" with
    | VNum n => parseInt n
    | _ => page defaultRequestOptions
    end in
  calculateOffset page (limit defaultRequestOptions).

Definition resolveColor (options : object) : value :=
  js_or (prop options "colors") (colors defaultRequestOptions).

(** The query parameters; [color] is the key ["color[]"]. *)
Record payload : Type := {
  payload_limit : Z;
  payload_offset : Z;
  payload_color : value
}.

Definition resolvePayload (options : object) : payload :=
  {| payload_limit := resolveLimit;
     payload_offset := resolveOffset options;
     payload_color := resolveColor options |}.

(** ** The API request *)

(** [URI(path).search(payload)]: the endpoint and its query, before the
    encoding done by the URI library. *)
Record uri : Type := {
  uri_path : string;
  uri_search : payload
}.

Definition generateApiGetRequest (path : string) (payload : payload) : uri :=
  {| uri_path := path; uri_search := payload |}.

Definition formApiRequest (options : object) : uri :=
  generateApiGetRequest window_path (resolvePayload options).

(** A response of the fetch collaborator: its status and the outcome of
    reading its body with [json()] (the parsed document, or the rejection
    of the parse). *)
Record response : Type := {
  status : Z;
  json : completion value
}.

(** [response.ok], as the Fetch standard defines it. *)
Definition ok (r : response) : bool := (200 <=? status r) && (status r <=? 299).

(** A settled promise with the effects of the chain that led to it: the
    requests issued, the errors reported on the console by
    [error => console.log('Error: ', error.message)], and the completion.
    The three chains of [requestPages] run concurrently; their console
    entries are listed chain by chain. *)
Record promise (A : Type) : Type := {
  fetched : list uri;
  logged : list error;
  settled : completion A
}.
Arguments fetched {A} p.
Arguments logged {A} p.
Arguments settled {A} p.

(** [p.then(onFulfilled)]; a handler that returns a promise is given here
    as the completion that promise settles with. *)
Definition then_ {A B : Type} (p : promise A) (onFulfilled : A → completion B)
  : promise B :=
  {| fetched := fetched p; logged := logged p;
     settled := settled p ≫= onFulfilled |}.

(** [p.catch(error => console.log('Error: ', error.message))]: the handler
    returns what [console.log] returns, [undefined]. *)
Definition catch_log {A : Type} (undefined : A) (p : promise A) : promise A :=
  match settled p with
  | Return _ => p
  | Throw e =>
      {| fetched := fetched p; logged := logged p ++ [e];
         settled := Return undefined |}
  end.

(** [Promise.all([a, b, c])]. *)
Definition Promise_all {A : Type} (a b c : promise A) : promise (A * A * A) :=
  {| fetched := fetched a ++ fetched b ++ fetched c;
     logged := logged a ++ logged b ++ logged c;
     settled := x ← settled a; y ← settled b; z ← settled c; Return (x, y, z) |}.

(** [v > 0] on a primitive that is not a string. *)
Definition gt_zero (v : value) : option bool :=
  match v with
  | VUndefined | VNull => Some false
  | VBool b => Some b
  | VNum n => Some (0 <? n)
  | VStr _ | VObj _ | VArr _ _ => None
  end.

Section Api.

(** The fetch collaborator ([../util/fetch-fill]): the promise it returns
    for a request, fulfilled with a response or rejected.  Within one call
    the data source answers equal requests equally. *)
Variable fetch : uri → completion response.

(** The runtime's [v > 0] on a string or an object, which converts its
    operand first (and may throw while doing so). *)
Variable coerced_gt_zero : value → completion bool.

Definition js_gt_zero (v : value) : completion bool :=
  match gt_zero v with
  | Some b => Return b
  | None => coerced_gt_zero v
  end.

Definition request (options : object) : promise value :=
  let uri := formApiRequest options in
  catch_log VUndefined
    (then_ {| fetched := [uri]; logged := []; settled := fetch uri |}
       (λ response,
          if ok response then json response
          else if (400 <? status response) && (status response <? 600) then
            Throw (Error ("Received " +:+ pretty (status response)
                          +:+ " response code during fetch"))
          else Return VUndefined)).

(** [options.page = page] writes into the caller's object: [peek] returns
    it along with the promise.  The parameter is declared [page = 1]. *)
Definition peek (options : object) (page : value) : object * promise value :=
  let page := default_arg (VNum 1) page in
  let options := <["page" := page]> options in
  (options, request options).

(** [options.page || defaultRequestOptions.page]. *)
Definition currentPage (options : object) : value :=
  js_or (prop options "page") (VNum (page defaultRequestOptions)).

(** [response && response.length > 0]. *)
Definition has_records (response : value) : completion bool :=
  if truthy response then get response "length" ≫= js_gt_zero
  else Return false.

(** The chain [requestPages] puts on a probe of the page [page]:
    [.then(response => (response && response.length > 0) ? page : null)]
    followed by the logging [catch]. *)
Definition neighbour (probe : promise value) (page : value) : promise value :=
  catch_log VUndefined
    (then_ probe (λ response,
       b ← has_records response;
       Return (if b : bool then page else VNull))).

(** [requestPages]: the caller's object after the two probes were
    launched, and the promise of the page.  The result is [None] when
    [currentPage - 1] or [currentPage + 1] leaves the numbers of the
    embedding.  The handlers of the probes evaluate [currentPage - 1] and
    [currentPage + 1] again, to the values already computed. *)
Definition requestPages (options : object) : option (object * promise value) :=
  let currentPage := currentPage options in
  let current := catch_log VUndefined (then_ (request options) Return) in
  previousPage ← js_sub currentPage (VNum 1);
  let '(options, probe) := peek options previousPage in
  let previous := neighbour probe previousPage in
  nextPage ← js_add currentPage (VNum 1);
  let '(options, probe) := peek options nextPage in
  let next := neighbour probe nextPage in
  Some (options,
        catch_log VUndefined
          (then_ (Promise_all current previous next)
             (λ '(response, previousPage, nextPage),
                response ← assign response "previousPage" previousPage;
                assign response "nextPage" nextPage))).

(** ** Post-API transform: [ResponseHandler] *)

Record aggregate : Type := {
  previousPage : value;
  nextPage : value;
  ids : list value;
  open : list value;
  closedPrimaryCount : Z
}.

(** The elements an array method ([map], [filter]) iterates over; on a
    value that is not an array the method is missing and the call throws. *)
Definition elements (v : value) : completion (list value) :=
  match v with
  | VArr elems _ => Return elems
  | _ => Throw TypeError
  end.

(** [l.filter(f)] for a callback that may throw. *)
Fixpoint filterM {A : Type} (f : A → completion bool) (l : list A)
  : completion (list A) :=
  match l with
  | [] => Return []
  | x :: l => b ← f x; l ← filterM f l; Return (if b : bool then x :: l else l)
  end.

(** The callback of [deriveAndAmendIsPrimary]:
    [record.isPrimary = primaryColors.includes(record.color) ? true : false]. *)
Definition amendIsPrimary (record : value) : completion value :=
  color ← get record "color";
  assign record "isPrimary" (VBool (includes primaryColors color)).

(** [this.response] is the array handed to [resolveResponse].  The source
    writes [isPrimary] into each record in place and drops the array [map]
    returns; the function returns [this.response] after these writes. *)
Definition deriveAndAmendIsPrimary (response : value) : completion value :=
  match response with
  | VArr elems props =>
      elems ← mapM amendIsPrimary elems; Return (VArr elems props)
  | _ => Throw TypeError
  end.

Definition resolveIds (response : value) : completion (list value) :=
  elems ← elements response; mapM (λ record, get record "id") elems.

Definition resolveOpen (response : value) : completion (list value) :=
  elems ← elements response;
  filterM (λ record,
             disposition ← get record "disposition";
             Return (strict_eq_str disposition "open")) elems.

Definition resolveClosedPrimaryCount (response : value) : completion Z :=
  elems ← elements response;
  closed ← filterM (λ record,
                      disposition ← get record "disposition";
                      if strict_eq_str disposition "closed"
                      then truthy <$> get record "isPrimary"
                      else Return false) elems;
  Return (Z.of_nat (length closed)).

(** [resolveResponse] returns the aggregate; its first component is
    [this.response] as the call leaves it, with the records amended. *)
Definition resolveResponse (response : value) (options : object)
  : completion (value * aggregate) :=
  let response := default_arg (VArr [] ∅) response in
  response ← deriveAndAmendIsPrimary response;
  previousPage ← get response "previousPage";
  nextPage ← get response "nextPage";
  ids ← resolveIds response;
  open ← resolveOpen response;
  closedPrimaryCount ← resolveClosedPrimaryCount response;
  Return (response,
          {| previousPage := previousPage; nextPage := nextPage; ids := ids;
             open := open; closedPrimaryCount := closedPrimaryCount |}).

(** The second call receives the array the first one amended. *)
Definition transformResponse (response : value) (options : object)
  : completion aggregate :=
  let response := default_arg (VArr [] ∅) response in
  '(response, transformedResponse) ← resolveResponse response options;
  snd <$> resolveResponse response options.

(** ** Entry point *)

(** [retrieve]: the caller's object as the call leaves it, and the promise
    returned; the promise is fulfilled with an aggregate or, after the last
    [catch], with [undefined] ([None]).  (A call without argument works on
    a fresh [{}], the empty map.) *)
Definition retrieve (options : object)
  : option (object * promise (option aggregate)) :=
  '(options, pages) ← requestPages options;
  Some (options,
        catch_log None
          (then_ pages (λ response, Some <$> transformResponse response options))).

(** ** The call for any evaluation of the two page numbers *)

(** [requestPages] from the point where [currentPage - 1] and
    [currentPage + 1] are evaluated, for whatever the two evaluate to (for
    the page ["2"] they are [1] and the string ["21"]): the same three
    chains and the same assignment, with the two values where
    [requestPages] has the results of [js_sub] and [js_add]. *)
Definition requestPages_from (options : object) (previousPage nextPage : value)
  : object * promise value :=
  let current := catch_log VUndefined (then_ (request options) Return) in
  let '(options, probe) := peek options previousPage in
  let previous := neighbour probe previousPage in
  let '(options, probe) := peek options nextPage in
  let next := neighbour probe nextPage in
  (options,
   catch_log VUndefined
     (then_ (Promise_all current previous next)
        (λ '(response, previousPage, nextPage),
           response ← assign response "previousPage" previousPage;
           assign response "nextPage" nextPage))).

(** [retrieve] over [requestPages_from]. *)
Definition retrieve_from (options : object) (previousPage nextPage : value)
  : object * promise (option aggregate) :=
  let '(options, pages) := requestPages_from options previousPage nextPage in
  (options,
   catch_log None
     (then_ pages (λ response, Some <$> transformResponse response options))).

End Api.

(** * Notions of the specification *)

(** ** Outcomes of a request *)

(** The outcomes of a fetch, by the taxonomy of the specification. *)
Inductive outcome : Type :=
| NetworkFailure
| ServerError (status : Z)
| AmbiguousStatus (status : Z)
| MalformedBody
| Parsed (document : value).

Definition classify (c : completion response) : outcome :=
  match c with
  | Throw _ => NetworkFailure
  | Return r =>
      if (200 <=? status r) && (status r <? 300) then
        match json r with
        | Return document => Parsed document
        | Throw _ => MalformedBody
        end
      else if (400 <=? status r) && (status r <? 600) then ServerError (status r)
      else AmbiguousStatus (status r)
  end.

(** What a request is fulfilled with, from the outcome of its fetch. *)
Definition page_of (c : completion response) : value :=
  match classify c with
  | Parsed document => document
  | _ => VUndefined
  end.

(** ** Records and aggregates *)

(** The derivation of the specification: a record is primary when its
    colour is exactly one of the three primary colours. *)
Definition isPrimary (record : object) : bool :=
  match record !! "color" with
  | Some (VStr color) =>
      String.eqb color "red" || String.eqb color "blue"
      || String.eqb color "yellow"
  | _ => false
  end.

Definition has_disposition (d : string) (record : object) : bool :=
  match record !! "disposition" with
  | Some (VStr disposition) => String.eqb disposition d
  | _ => false
  end.

(** A record with the derived field written into it. *)
Definition amended (record : object) : object :=
  <["isPrimary" := VBool (isPrimary record)]> record.

(** The test of [resolveClosedPrimaryCount] reads the field that
    [deriveAndAmendIsPrimary] wrote. *)
Definition closed_flagged (record : object) : bool :=
  has_disposition "closed" record && truthy (prop record "isPrimary").

(** The aggregate of the specification for a page of record objects. *)
Definition aggregate_of (records : list object) (props : object) : aggregate :=
  {| previousPage := prop props "previousPage";
     nextPage := prop props "nextPage";
     ids := (λ record, prop record "id") <$> records;
     open := VObj <$> (amended <$> List.filter (has_disposition "open") records);
     closedPrimaryCount :=
       Z.of_nat (length (List.filter
                           (λ record, has_disposition "closed" record && isPrimary record)
                           records)) |}.

(** A value that takes property assignments: an object or an array. *)
Definition is_object (v : value) : bool :=
  match v with
  | VObj _ | VArr _ _ => true
  | _ => false
  end.

(** The values of the current page for which [retrieve] ends with an
    aggregate: anything [requestPages] replaces by [undefined] (no value, or
    a primitive, on which the page numbers cannot be set), and an array
    whose elements are all objects. *)
Definition aggregable (v : value) : bool :=
  match v with
  | VObj _ => false
  | VArr elems _ => forallb is_object elems
  | VUndefined | VNull | VBool _ | VNum _ | VStr _ => true
  end.

(** ** The page numbers *)

(** What attaching the two page numbers to the response of the current
    page leaves in the promise of [requestPages]: the response with the two
    properties, or [undefined] when the assignment throws and the [catch]
    logs it. *)
Definition attached (response previousPage nextPage : value) : value :=
  match assign response "previousPage" previousPage
        ≫= λ response, assign response "nextPage" nextPage with
  | Return response => response
  | Throw _ => VUndefined
  end.

(** The page number a probe of [page], launched with the options
    [probe_options], is fulfilled with. *)
Definition hint (fetch : uri → completion response)
    (coerced_gt_zero : value → completion bool)
    (probe_options : object) (page : value) : value :=
  match has_records coerced_gt_zero (page_of (fetch (formApiRequest probe_options))) with
  | Return true => page
  | Return false => VNull
  | Throw _ => VUndefined
  end.

(** The values [transformResponse] itself accepts: [undefined], replaced by
    the default [[]], and an array whose elements are all objects. *)
Definition transformable (v : value) : bool :=
  match v with
  | VUndefined => true
  | VArr elems _ => forallb is_object elems
  | VNull | VBool _ | VNum _ | VStr _ | VObj _ => false
  end.

(** A page as a probe normally receives it: no value, or an array. *)
Definition plain_page (v : value) : bool :=
  match v with
  | VUndefined | VArr _ _ => true
  | _ => false
  end.

(** The page holds at least one record. *)
Definition has_elements (v : value) : bool :=
  match v with
  | VArr (_ :: _) _ => true
  | _ => false
  end.

(** The request of one window of the collection. *)
Definition window_request (color : value) (offset : Z) : uri :=
  {| uri_path := window_path;
     uri_search := {| payload_limit := 10; payload_offset := offset;
                      payload_color := color |} |}.

(** ** Scenarios *)

Definition red_open : object :=
  {["id" := VNum 1; "color" := VStr "red"; "disposition" := VStr "open"]}.

Definition green_closed : object :=
  {["id" := VNum 2; "color" := VStr "green"; "disposition" := VStr "closed"]}.

(** A data source with one record on page 1 (offset 0), two on page 2
    (offset 10) and none further on. *)
Definition healthy_source (u : uri) : completion response :=
  match payload_offset (uri_search u) with
  | 0 => Return {| status := 200; json := Return (VArr [VObj red_open] ∅) |}
  | 10 =>
      Return {| status := 200;
                json := Return (VArr [VObj red_open; VObj green_closed] ∅) |}
  | _ => Return {| status := 200; json := Return (VArr [] ∅) |}
  end.

(** The same data source answering the request of page 2 with a 500. *)
Definition failing_target (u : uri) : completion response :=
  match payload_offset (uri_search u) with
  | 0 => Return {| status := 200; json := Return (VArr [VObj red_open] ∅) |}
  | 10 => Return {| status := 500; json := Throw SyntaxError |}
  | _ => Return {| status := 200; json := Return (VArr [] ∅) |}
  end.

(** A data source whose every answer is the JSON document [{}]. *)
Definition object_source (u : uri) : completion response :=
  Return {| status := 200; json := Return (VObj ∅) |}.

(** No scenario compares a string or an object with 0. *)
Definition never_positive (v : value) : completion bool := Return false.

(** Options carrying a property the source never reads. *)
Definition page_two_with_limit : object :=
  {["page" := VNum 2; "limit" := VNum 50]}.

(** * Properties *)

(** ** Option resolution *)

Lemma calculateOffset_page (page : Z) :
  calculateOffset page (limit defaultRequestOptions) = (page - 1) * 10.
Proof. unfold calculateOffset; simpl; lia. Qed.

Example offset_page_1 : resolveOffset {["page" := VNum 1]} = 0.
Proof. reflexivity. Qed.

Example offset_page_3 : resolveOffset {["page" := VNum 3]} = 20.
Proof. reflexivity. Qed.

Example offset_page_string : resolveOffset {["page" := VStr "3"]} = 0.
Proof. reflexivity. Qed.

(** C2, as stated, fails: a page that is a number is never replaced by the
    default.  For page 0 the offset is -10, not the offset 0 of page 1. *)
Lemma resolveOffset_page_zero :
  let options : object := {["page" := VNum 0]} in
  prop options "page" = VNum 0 ∧
  resolveOffset options = -10 ∧
  resolveOffset options ≠ calculateOffset 1 10.
Proof. repeat split. intros H. vm_compute in H. discriminate. Qed.

Lemma resolveOffset_cases (options : object) :
  resolveOffset options =
    match prop options "page" with
    | VNum page => (page - 1) * 10
    | _ => 0
    end.
Proof.
  unfold resolveOffset.
  destruct (prop options "page");
    rewrite calculateOffset_page; unfold parseInt; reflexivity.
Qed.

(** C2, amended: the offset is (page - 1) * 10 for every page that is an
    integer number, zero and negative pages included; the page defaults to
    1, and the offset to 0, exactly when the supplied page is not of type
    number (missing, a string, null, a boolean, an object).  The offset put
    in the payload is this one. *)
Theorem resolveOffset_by_type (options : object) :
  payload_offset (resolvePayload options) = resolveOffset options ∧
  resolveOffset options =
    match prop options "page" with
    | VNum page => (page - 1) * 10
    | _ => 0
    end.
Proof. split; [reflexivity | apply resolveOffset_cases]. Qed.

(** ** A single page request *)

Lemma settled_catch_log {A : Type} (undefined : A) (p : promise A) :
  settled (catch_log undefined p) =
    Return match settled p with
           | Return a => a
           | Throw _ => undefined
           end.
Proof. unfold catch_log. destruct (settled p) eqn:E; [exact E | reflexivity]. Qed.

Lemma fetched_catch_log {A : Type} (undefined : A) (p : promise A) :
  fetched (catch_log undefined p) = fetched p.
Proof. unfold catch_log. destruct (settled p); reflexivity. Qed.

Lemma fetched_request fetch (options : object) :
  fetched (request fetch options) = [formApiRequest options].
Proof. unfold request. rewrite fetched_catch_log. reflexivity. Qed.

Lemma settled_request fetch (options : object) :
  settled (request fetch options) =
    Return (page_of (fetch (formApiRequest options))).
Proof.
  unfold request, page_of, classify. rewrite settled_catch_log. f_equal. simpl.
  destruct (fetch (formApiRequest options)) as [r|e]; simpl; [|reflexivity].
  unfold ok.
  destruct (Z.leb_spec 200 (status r)), (Z.leb_spec (status r) 299),
    (Z.ltb_spec (status r) 300), (Z.ltb_spec 400 (status r)),
    (Z.leb_spec 400 (status r)), (Z.ltb_spec (status r) 600);
    simpl; try lia; try reflexivity; destruct (json r); reflexivity.
Qed.

(** C3, as stated, fails: a 2xx response whose body parses to a document
    that is not an array is handed to the caller as parsed.  Here the body
    is the object [{}]. *)
Lemma request_passes_non_array_document :
  object_source (formApiRequest ∅)
  = Return {| status := 200; json := Return (VObj ∅) |} ∧
  settled (request object_source ∅) = Return (VObj ∅) ∧
  settled (request object_source ∅) ≠ Return VUndefined.
Proof. repeat split. discriminate. Qed.

(** C3, amended: a request never rejects.  It is fulfilled with [undefined]
    when the fetch is rejected, when the status is in [400, 600) (or any
    other status outside 2xx), and when the body of a 2xx response does not
    parse; a 2xx body that parses is passed on as parsed, whether it is an
    array or not. *)
Theorem request_never_rejects fetch (options : object) :
  settled (request fetch options) =
    Return match classify (fetch (formApiRequest options)) with
           | NetworkFailure | ServerError _ | AmbiguousStatus _
           | MalformedBody => VUndefined
           | Parsed document => document
           end.
Proof.
  rewrite settled_request. unfold page_of.
  destruct (classify _); reflexivity.
Qed.

(** ** The transformation of a page *)

Lemma includes_primaryColors (record : object) :
  includes primaryColors (prop record "color") = isPrimary record.
Proof.
  unfold isPrimary, prop. destruct (record !! "color") as [[]|]; simpl; try reflexivity.
  rewrite orb_false_r, orb_assoc. reflexivity.
Qed.

Lemma amendIsPrimary_object (record : object) :
  amendIsPrimary (VObj record) = Return (VObj (amended record)).
Proof.
  unfold amendIsPrimary, amended. simpl. rewrite includes_primaryColors. reflexivity.
Qed.

Lemma has_disposition_amended d (record : object) :
  has_disposition d (amended record) = has_disposition d record.
Proof.
  unfold has_disposition, amended. rewrite lookup_insert_ne by discriminate. reflexivity.
Qed.

Lemma isPrimary_amended (record : object) :
  isPrimary (amended record) = isPrimary record.
Proof.
  unfold isPrimary, amended. rewrite lookup_insert_ne by discriminate. reflexivity.
Qed.

Lemma lookup_isPrimary_amended (record : object) :
  amended record !! "isPrimary" = Some (VBool (isPrimary record)).
Proof. unfold amended. apply lookup_insert_eq. Qed.

Lemma mapM_cons {A B : Type} (f : A → completion B) (x : A) (l : list A) :
  mapM f (x :: l) = y ← f x; k ← mapM f l; Return (y :: k).
Proof. reflexivity. Qed.

Lemma mapM_amendIsPrimary_objects (records : list object) :
  mapM amendIsPrimary (VObj <$> records) = Return (VObj <$> (amended <$> records)).
Proof.
  induction records as [|record records IH]; [reflexivity|].
  rewrite !fmap_cons, mapM_cons, amendIsPrimary_object, IH. reflexivity.
Qed.

Lemma mapM_get_objects k (records : list object) :
  mapM (λ record, get record k) (VObj <$> records)
  = Return ((λ record, prop record k) <$> records).
Proof.
  induction records as [|record records IH]; [reflexivity|].
  rewrite !fmap_cons, mapM_cons, IH. reflexivity.
Qed.

Lemma filterM_objects (f : value → completion bool) (g : object → bool)
    (records : list object) :
  (∀ record, f (VObj record) = Return (g record)) →
  filterM f (VObj <$> records) = Return (VObj <$> List.filter g records).
Proof.
  intros Hfg. induction records as [|record records IH]; [reflexivity|].
  rewrite fmap_cons. cbn [filterM List.filter]. rewrite Hfg, IH.
  destruct (g record); reflexivity.
Qed.

Lemma resolveIds_objects (records : list object) (props : object) :
  resolveIds (VArr (VObj <$> records) props)
  = Return ((λ record, prop record "id") <$> records).
Proof. unfold resolveIds. simpl. apply mapM_get_objects. Qed.

Lemma resolveOpen_objects (records : list object) (props : object) :
  resolveOpen (VArr (VObj <$> records) props)
  = Return (VObj <$> List.filter (has_disposition "open") records).
Proof.
  unfold resolveOpen. simpl. apply filterM_objects.
  intros record. simpl. unfold has_disposition, prop.
  destruct (record !! "disposition") as [[]|]; reflexivity.
Qed.

Lemma resolveClosedPrimaryCount_objects (records : list object) (props : object) :
  resolveClosedPrimaryCount (VArr (VObj <$> records) props)
  = Return (Z.of_nat (length (List.filter closed_flagged records))).
Proof.
  unfold resolveClosedPrimaryCount. simpl.
  rewrite (filterM_objects _ closed_flagged).
  - simpl. rewrite length_fmap. reflexivity.
  - intros record. simpl. unfold closed_flagged, has_disposition, prop.
    destruct (record !! "disposition") as [[| | | |d| |]|]; simpl; try reflexivity.
    destruct (String.eqb d "closed"); reflexivity.
Qed.

Lemma filter_amended (f : object → bool) (records : list object) :
  (∀ record, f (amended record) = f record) →
  List.filter f (amended <$> records) = amended <$> List.filter f records.
Proof.
  intros Hf. induction records as [|record records IH]; [reflexivity|].
  rewrite fmap_cons. cbn [List.filter]. rewrite Hf, IH.
  destruct (f record); reflexivity.
Qed.

Lemma filter_closed_flagged_amended (records : list object) :
  length (List.filter closed_flagged (amended <$> records))
  = length (List.filter (λ record, has_disposition "closed" record && isPrimary record)
              records).
Proof.
  induction records as [|record records IH]; [reflexivity|].
  rewrite fmap_cons. cbn [List.filter]. unfold closed_flagged at 1, prop.
  rewrite has_disposition_amended, lookup_isPrimary_amended.
  simpl (truthy _).
  destruct (has_disposition "closed" record && isPrimary record);
    cbn [length]; rewrite IH; reflexivity.
Qed.

Lemma resolveResponse_objects (records : list object) (props options : object) :
  resolveResponse (VArr (VObj <$> records) props) options
  = Return (VArr (VObj <$> (amended <$> records)) props, aggregate_of records props).
Proof.
  unfold resolveResponse. cbn [default_arg deriveAndAmendIsPrimary].
  rewrite mapM_amendIsPrimary_objects. cbn [mbind completion_bind].
  rewrite resolveIds_objects, resolveOpen_objects, resolveClosedPrimaryCount_objects.
  cbn [mbind completion_bind get String.eqb Ascii.eqb Bool.eqb].
  unfold aggregate_of. do 3 f_equal.
  - rewrite <- list_fmap_compose. apply list_fmap_ext. intros _ record _.
    unfold compose, prop, amended. rewrite lookup_insert_ne by discriminate. reflexivity.
  - f_equal. apply filter_amended. intros record. apply has_disposition_amended.
  - f_equal. apply filter_closed_flagged_amended.
Qed.

(** *** A second application changes nothing *)

Lemma prop_insert_ne (o : object) (j k : string) (x : value) :
  j ≠ k → prop (<[j := x]> o) k = prop o k.
Proof. intros Hne. unfold prop. rewrite lookup_insert_ne by exact Hne. reflexivity. Qed.

Lemma amendIsPrimary_again (record record' : value) :
  amendIsPrimary record = Return record' → amendIsPrimary record' = Return record'.
Proof.
  destruct record; try discriminate; intros [= <-]; unfold amendIsPrimary;
    cbn [get mbind completion_bind assign String.eqb Ascii.eqb Bool.eqb];
    rewrite prop_insert_ne by discriminate; rewrite insert_insert_eq; reflexivity.
Qed.

Lemma mapM_amendIsPrimary_again (elems elems' : list value) :
  mapM amendIsPrimary elems = Return elems' →
  mapM amendIsPrimary elems' = Return elems'.
Proof.
  revert elems'. induction elems as [|record elems IH]; intros elems'.
  - intros [= <-]. reflexivity.
  - rewrite mapM_cons.
    destruct (amendIsPrimary record) as [record'|] eqn:Hrecord; [|discriminate].
    destruct (mapM amendIsPrimary elems) as [rest|] eqn:Hrest; [|discriminate].
    intros [= <-]. rewrite mapM_cons.
    rewrite (amendIsPrimary_again _ _ Hrecord), (IH _ eq_refl). reflexivity.
Qed.

Lemma deriveAndAmendIsPrimary_again (response response' : value) :
  deriveAndAmendIsPrimary response = Return response' →
  deriveAndAmendIsPrimary response' = Return response' ∧
  default_arg (VArr [] ∅) response' = response'.
Proof.
  destruct response; try discriminate. cbn [deriveAndAmendIsPrimary].
  destruct (mapM amendIsPrimary elems) as [elems'|] eqn:Helems; [|discriminate].
  intros [= <-]. cbn [deriveAndAmendIsPrimary default_arg].
  rewrite (mapM_amendIsPrimary_again _ _ Helems). split; reflexivity.
Qed.

Lemma resolveResponse_again (response response' : value) (options : object)
    (result : aggregate) :
  resolveResponse response options = Return (response', result) →
  resolveResponse response' options = Return (response', result).
Proof.
  unfold resolveResponse.
  destruct (deriveAndAmendIsPrimary (default_arg (VArr [] ∅) response))
    as [amended_response|] eqn:Hderive; [|discriminate].
  destruct (deriveAndAmendIsPrimary_again _ _ Hderive) as [Hagain Hdefault].
  cbn [mbind completion_bind]. intros Hrest.
  assert (amended_response = response') as ->.
  { repeat match type of Hrest with
           | context [mbind _ ?c] =>
               destruct c; cbn [mbind completion_bind] in Hrest; [|discriminate]
           end.
    congruence. }
  rewrite Hdefault, Hagain. cbn [mbind completion_bind]. exact Hrest.
Qed.

Lemma resolveResponse_default_arg (response : value) (options : object) :
  resolveResponse (default_arg (VArr [] ∅) response) options
  = resolveResponse response options.
Proof. destruct response; reflexivity. Qed.

Lemma transformResponse_once (response : value) (options : object) :
  transformResponse response options = snd <$> resolveResponse response options.
Proof.
  unfold transformResponse. rewrite resolveResponse_default_arg.
  destruct (resolveResponse response options) as [[response' result]|e] eqn:Hfirst;
    [|reflexivity].
  cbn [mbind completion_bind]. rewrite (resolveResponse_again _ _ _ _ Hfirst).
  reflexivity.
Qed.

Lemma transformResponse_objects (records : list object) (props options : object) :
  transformResponse (VArr (VObj <$> records) props) options
  = Return (aggregate_of records props).
Proof. rewrite transformResponse_once, resolveResponse_objects. reflexivity. Qed.

Lemma transformResponse_undefined (options : object) :
  transformResponse VUndefined options = Return (aggregate_of [] ∅).
Proof. reflexivity. Qed.

Example transform_end_to_end :
  let record1 : object :=
    {["id" := VNum 1; "color" := VStr "red"; "disposition" := VStr "open"]} in
  let record2 : object :=
    {["id" := VNum 2; "color" := VStr "green"; "disposition" := VStr "closed"]} in
  transformResponse
    (VArr [VObj record1; VObj record2] {["previousPage" := VNum 1; "nextPage" := VNull]})
    ∅
  = Return {| previousPage := VNum 1; nextPage := VNull; ids := [VNum 1; VNum 2];
              open := [VObj (<["isPrimary" := VBool true]> record1)];
              closedPrimaryCount := 0 |}.
Proof. vm_compute. reflexivity. Qed.

Example isPrimary_is_case_sensitive :
  isPrimary {["color" := VStr "Red"]} = false ∧ isPrimary {["color" := VStr "red"]} = true.
Proof. split; reflexivity. Qed.

(** C7: for every page of records, the [closedPrimaryCount] of the
    aggregate, of a single [resolveResponse] as of [transformResponse], is
    the number of records whose disposition is exactly "closed" and whose
    colour is exactly one of "red", "blue" and "yellow"; for a page without
    records it is 0. *)
Theorem closedPrimaryCount_counts_closed_primary :
  (∀ (records : list object) (props options : object),
     let expected :=
       Z.of_nat (length (List.filter
                           (λ record, has_disposition "closed" record && isPrimary record)
                           records)) in
     closedPrimaryCount ∘ snd <$> resolveResponse (VArr (VObj <$> records) props) options
     = Return expected ∧
     closedPrimaryCount <$> transformResponse (VArr (VObj <$> records) props) options
     = Return expected) ∧
  (∀ props options : object,
     closedPrimaryCount <$> transformResponse (VArr [] props) options = Return 0).
Proof.
  split.
  - intros records props options expected.
    rewrite transformResponse_objects, resolveResponse_objects. split; reflexivity.
  - intros props options. reflexivity.
Qed.

(** C8: for every page of records, the [open] field of the aggregate is the
    sequence of the input records whose disposition is exactly "open", in
    the order of the input, each with the derived [isPrimary] field written
    into it (and otherwise as received). *)
Theorem open_is_the_open_subsequence (records : list object) (props options : object) :
  ∃ result : aggregate,
    transformResponse (VArr (VObj <$> records) props) options = Return result ∧
    open result
    = VObj <$> (amended <$> List.filter (has_disposition "open") records) ∧
    Forall (λ v, ∃ record : object,
                   v = VObj record ∧
                   has_disposition "open" record = true ∧
                   record !! "isPrimary" = Some (VBool (isPrimary record)))
           (open result).
Proof.
  exists (aggregate_of records props).
  split; [apply transformResponse_objects|]. split; [reflexivity|].
  cbn [open aggregate_of]. rewrite Forall_fmap, Forall_fmap.
  apply List.Forall_forall. intros record [_ Hopen]%List.filter_In.
  exists (amended record). split; [reflexivity|].
  rewrite has_disposition_amended, isPrimary_amended. split; [exact Hopen|].
  apply lookup_isPrimary_amended.
Qed.

(** C10: [transformResponse] applies [resolveResponse] twice and returns
    the second result, which is the result of a single application, for
    every response and options (a throw of the single application
    included); applying [resolveResponse] to the array it has amended
    yields the same array and the same aggregate. *)
Theorem transformResponse_is_one_resolveResponse (response : value) (options : object) :
  transformResponse response options = snd <$> resolveResponse response options ∧
  (resolveResponse response options
     ≫= λ '(response', _), resolveResponse response' options)
  = resolveResponse response options.
Proof.
  split; [apply transformResponse_once|].
  destruct (resolveResponse response options) as [[response' result]|e] eqn:Hfirst;
    [|reflexivity].
  cbn [mbind completion_bind]. exact (resolveResponse_again _ _ _ _ Hfirst).
Qed.

(** ** The three requests of a call *)

Section Orchestration.

Variable fetch : uri → completion response.
Variable coerced_gt_zero : value → completion bool.

Lemma settled_neighbour (probe_options : object) (page : value) :
  settled (neighbour coerced_gt_zero (request fetch probe_options) page)
  = Return (hint fetch coerced_gt_zero probe_options page).
Proof.
  unfold neighbour, hint. rewrite settled_catch_log. f_equal.
  cbn [settled then_]. rewrite settled_request. cbn [mbind completion_bind].
  destruct (has_records _ _) as [[]|]; reflexivity.
Qed.

Lemma fetched_neighbour (probe_options : object) (page : value) :
  fetched (neighbour coerced_gt_zero (request fetch probe_options) page)
  = [formApiRequest probe_options].
Proof.
  unfold neighbour. rewrite fetched_catch_log. cbn [fetched then_].
  apply fetched_request.
Qed.

Variable options : object.
Variable n : Z.
Hypothesis target : to_number (currentPage options) = Some n.

Lemma requestPages_numbered :
  ∃ p : promise value,
    requestPages fetch coerced_gt_zero options
    = Some (<["page" := VNum (n + 1)]> options, p) ∧
    fetched p = [formApiRequest options;
                 formApiRequest (<["page" := VNum (n - 1)]> options);
                 formApiRequest (<["page" := VNum (n + 1)]> options)] ∧
    settled p
    = Return (attached (page_of (fetch (formApiRequest options)))
                (hint fetch coerced_gt_zero (<["page" := VNum (n - 1)]> options)
                   (VNum (n - 1)))
                (hint fetch coerced_gt_zero (<["page" := VNum (n + 1)]> options)
                   (VNum (n + 1)))).
Proof.
  unfold requestPages, js_sub, js_add, peek. rewrite target.
  cbn [mbind option_bind to_number].
  rewrite insert_insert_eq.
  eexists. split; [reflexivity|]. split.
  - rewrite fetched_catch_log. cbn [fetched then_ Promise_all].
    rewrite !fetched_neighbour, fetched_catch_log. cbn [fetched then_].
    rewrite fetched_request. reflexivity.
  - rewrite settled_catch_log. f_equal. cbn [settled then_ Promise_all].
    rewrite !settled_neighbour, settled_catch_log. cbn [settled then_].
    rewrite settled_request. reflexivity.
Qed.

End Orchestration.

(** ** Which pages can be transformed *)

Lemma amendIsPrimary_is_object (record : value) :
  is_object record = true →
  ∃ record', amendIsPrimary record = Return record' ∧ is_object record' = true.
Proof. destruct record; try discriminate; intros _; eexists; split; reflexivity. Qed.

Lemma amendIsPrimary_not_object (record : value) :
  is_object record = false → amendIsPrimary record = Throw TypeError.
Proof. destruct record; try discriminate; reflexivity. Qed.

Lemma mapM_amendIsPrimary_total (elems : list value) :
  forallb is_object elems = true →
  ∃ elems', mapM amendIsPrimary elems = Return elems' ∧
            forallb is_object elems' = true.
Proof.
  induction elems as [|record elems IH]; [exists []; split; reflexivity|].
  cbn [forallb]. intros [Hrecord Helems]%andb_prop.
  destruct (amendIsPrimary_is_object _ Hrecord) as (record' & Hamend & Hobject).
  destruct (IH Helems) as (elems' & Hmap & Hobjects).
  exists (record' :: elems'). rewrite mapM_cons, Hamend, Hmap. split; [reflexivity|].
  cbn [forallb]. rewrite Hobject, Hobjects. reflexivity.
Qed.

Lemma mapM_amendIsPrimary_throws (elems : list value) :
  forallb is_object elems = false → mapM amendIsPrimary elems = Throw TypeError.
Proof.
  induction elems as [|record elems IH]; [discriminate|].
  cbn [forallb]. rewrite mapM_cons. destruct (is_object record) eqn:Hrecord.
  - destruct (amendIsPrimary_is_object _ Hrecord) as (record' & -> & _).
    intros Helems. rewrite (IH Helems). reflexivity.
  - intros _. rewrite (amendIsPrimary_not_object _ Hrecord). reflexivity.
Qed.

Lemma get_is_object (record : value) (k : string) :
  is_object record = true → ∃ x, get record k = Return x.
Proof. destruct record; try discriminate; intros _; eexists; reflexivity. Qed.

Lemma mapM_get_total (k : string) (elems : list value) :
  forallb is_object elems = true →
  ∃ xs, mapM (λ record, get record k) elems = Return xs.
Proof.
  induction elems as [|record elems IH]; [exists []; reflexivity|].
  cbn [forallb]. intros [Hrecord Helems]%andb_prop.
  destruct (get_is_object _ k Hrecord) as [x Hx], (IH Helems) as [xs Hxs].
  exists (x :: xs). rewrite mapM_cons, Hx, Hxs. reflexivity.
Qed.

Lemma filterM_total (f : value → completion bool) (elems : list value) :
  (∀ record, is_object record = true → ∃ b, f record = Return b) →
  forallb is_object elems = true →
  ∃ kept, filterM f elems = Return kept.
Proof.
  intros Hf. induction elems as [|record elems IH]; [exists []; reflexivity|].
  cbn [forallb]. intros [Hrecord Helems]%andb_prop.
  destruct (Hf _ Hrecord) as [b Hb], (IH Helems) as [kept Hkept].
  cbn [filterM]. rewrite Hb, Hkept. eexists. reflexivity.
Qed.

(** On an array of objects the transformation returns an aggregate, with
    the page numbers the array carries. *)
Lemma transformResponse_array_of_objects (elems : list value) (props options : object) :
  forallb is_object elems = true →
  ∃ result : aggregate,
    transformResponse (VArr elems props) options = Return result ∧
    previousPage result = prop props "previousPage" ∧
    nextPage result = prop props "nextPage".
Proof.
  intros Helems. rewrite transformResponse_once.
  unfold resolveResponse. cbn [default_arg deriveAndAmendIsPrimary].
  destruct (mapM_amendIsPrimary_total _ Helems) as (elems' & -> & Helems').
  cbn [mbind completion_bind get String.eqb Ascii.eqb Bool.eqb].
  unfold resolveIds, resolveOpen, resolveClosedPrimaryCount.
  cbn [elements mbind completion_bind].
  destruct (mapM_get_total "id" _ Helems') as [xs ->].
  cbn [mbind completion_bind].
  destruct (filterM_total
              (λ record, disposition ← get record "disposition";
                         Return (strict_eq_str disposition "open")) elems')
    as [opened ->]; [|exact Helems'|].
  { intros record [x ->]%(get_is_object _ "disposition"). eexists. reflexivity. }
  cbn [mbind completion_bind].
  destruct (filterM_total
              (λ record, disposition ← get record "disposition";
                         if strict_eq_str disposition "closed"
                         then truthy <$> get record "isPrimary"
                         else Return false) elems')
    as [closed ->]; [|exact Helems'|].
  { intros record Hrecord.
    destruct (get_is_object _ "disposition" Hrecord) as [x ->].
    destruct (get_is_object _ "isPrimary" Hrecord) as [y ->].
    cbn [mbind completion_bind]. destruct (strict_eq_str x "closed"); eexists; reflexivity. }
  eexists. split; [reflexivity|]. split; reflexivity.
Qed.

Lemma transformResponse_throws (response : value) (options : object) :
  aggregable response = false →
  transformResponse response options = Throw TypeError.
Proof.
  intros Hresponse. rewrite transformResponse_once.
  destruct response; try discriminate; [reflexivity|].
  unfold resolveResponse. cbn [default_arg deriveAndAmendIsPrimary].
  rewrite (mapM_amendIsPrimary_throws _ Hresponse). reflexivity.
Qed.

Lemma attached_array (elems : list value) (props : object) (previousPage nextPage : value) :
  attached (VArr elems props) previousPage nextPage
  = VArr elems (<["nextPage" := nextPage]> (<["previousPage" := previousPage]> props)).
Proof. reflexivity. Qed.

Lemma attached_object (props : object) (previousPage nextPage : value) :
  attached (VObj props) previousPage nextPage
  = VObj (<["nextPage" := nextPage]> (<["previousPage" := previousPage]> props)).
Proof. reflexivity. Qed.

Lemma attached_not_object (response previousPage nextPage : value) :
  is_object response = false → attached response previousPage nextPage = VUndefined.
Proof. destruct response; try discriminate; reflexivity. Qed.

Lemma prop_attached_previousPage (props : object) (previousPage nextPage : value) :
  prop (<["nextPage" := nextPage]> (<["previousPage" := previousPage]> props))
    "previousPage" = previousPage.
Proof.
  unfold prop. rewrite lookup_insert_ne by discriminate.
  rewrite lookup_insert_eq. reflexivity.
Qed.

Lemma prop_attached_nextPage (props : object) (previousPage nextPage : value) :
  prop (<["nextPage" := nextPage]> (<["previousPage" := previousPage]> props))
    "nextPage" = nextPage.
Proof. unfold prop. rewrite lookup_insert_eq. reflexivity. Qed.

(** ** The call as a whole *)

Section Retrieve.

Variable fetch : uri → completion response.
Variable coerced_gt_zero : value → completion bool.
Variable options : object.
Variable n : Z.
Hypothesis target : to_number (currentPage options) = Some n.

Lemma retrieve_numbered :
  ∃ p : promise (option aggregate),
    retrieve fetch coerced_gt_zero options
    = Some (<["page" := VNum (n + 1)]> options, p) ∧
    fetched p = [formApiRequest options;
                 formApiRequest (<["page" := VNum (n - 1)]> options);
                 formApiRequest (<["page" := VNum (n + 1)]> options)] ∧
    settled p
    = Return
        match transformResponse
                (attached (page_of (fetch (formApiRequest options)))
                   (hint fetch coerced_gt_zero (<["page" := VNum (n - 1)]> options)
                      (VNum (n - 1)))
                   (hint fetch coerced_gt_zero (<["page" := VNum (n + 1)]> options)
                      (VNum (n + 1))))
                (<["page" := VNum (n + 1)]> options) with
        | Return result => Some result
        | Throw _ => None
        end.
Proof.
  destruct (requestPages_numbered fetch coerced_gt_zero options n target)
    as (pages & Hpages & Hfetched & Hsettled).
  unfold retrieve. rewrite Hpages. cbn [mbind option_bind].
  eexists. split; [reflexivity|]. split.
  - rewrite fetched_catch_log. exact Hfetched.
  - rewrite settled_catch_log. f_equal. cbn [settled then_]. rewrite Hsettled.
    cbn [mbind completion_bind]. destruct (transformResponse _ _); reflexivity.
Qed.

(** When the request of the current page yields nothing the page numbers
    can be set on, the aggregate is the one of an empty page, without page
    numbers: the assignment throws, the error is logged, and
    [transformResponse] receives [undefined]. *)
Lemma retrieve_without_current_page :
  is_object (page_of (fetch (formApiRequest options))) = false →
  ∃ p : promise (option aggregate),
    retrieve fetch coerced_gt_zero options
    = Some (<["page" := VNum (n + 1)]> options, p) ∧
    settled p
    = Return (Some {| previousPage := VUndefined; nextPage := VUndefined;
                      ids := []; open := []; closedPrimaryCount := 0 |}).
Proof.
  intros Hcurrent. destruct retrieve_numbered as (p & Hp & _ & Hsettled).
  exists p. split; [exact Hp|]. rewrite Hsettled.
  rewrite (attached_not_object _ _ _ Hcurrent). reflexivity.
Qed.

(** When the current page is an array of records, the aggregate is the one
    of these records, with the page numbers the probes were fulfilled
    with. *)
Lemma retrieve_with_current_page (records : list object) (props : object) :
  page_of (fetch (formApiRequest options)) = VArr (VObj <$> records) props →
  ∃ (p : promise (option aggregate)) (result : aggregate),
    retrieve fetch coerced_gt_zero options
    = Some (<["page" := VNum (n + 1)]> options, p) ∧
    settled p = Return (Some result) ∧
    previousPage result
    = hint fetch coerced_gt_zero (<["page" := VNum (n - 1)]> options) (VNum (n - 1)) ∧
    nextPage result
    = hint fetch coerced_gt_zero (<["page" := VNum (n + 1)]> options) (VNum (n + 1)) ∧
    ids result = (λ record, prop record "id") <$> records ∧
    open result = VObj <$> (amended <$> List.filter (has_disposition "open") records) ∧
    closedPrimaryCount result
    = Z.of_nat (length (List.filter
                          (λ record, has_disposition "closed" record && isPrimary record)
                          records)).
Proof.
  intros Hcurrent. destruct retrieve_numbered as (p & Hp & _ & Hsettled).
  exists p. eexists. split; [exact Hp|]. rewrite Hsettled, Hcurrent, attached_array.
  rewrite transformResponse_objects. split; [reflexivity|].
  cbn [previousPage nextPage ids open closedPrimaryCount aggregate_of].
  rewrite prop_attached_previousPage, prop_attached_nextPage.
  repeat split; reflexivity.
Qed.

End Retrieve.

(** What a probe is fulfilled with, by the page it received: the page
    number for a non-empty array, [null] for an empty one and when the
    request yielded no value. *)
Lemma hint_array fetch coerced_gt_zero (probe_options : object) (page : value)
    (elems : list value) (props : object) :
  page_of (fetch (formApiRequest probe_options)) = VArr elems props →
  hint fetch coerced_gt_zero probe_options page
  = match elems with
    | [] => VNull
    | _ :: _ => page
    end.
Proof. intros Hprobe. unfold hint. rewrite Hprobe. destruct elems; reflexivity. Qed.

Lemma hint_no_value fetch coerced_gt_zero (probe_options : object) (page : value) :
  page_of (fetch (formApiRequest probe_options)) = VUndefined →
  hint fetch coerced_gt_zero probe_options page = VNull.
Proof. intros Hprobe. unfold hint. rewrite Hprobe. reflexivity. Qed.

(** The adjacency rule on the path where the current page arrived: with
    probes that yield arrays, [previousPage] is the page before exactly
    when its array is not empty, and [null] otherwise; likewise for
    [nextPage]. *)
Lemma retrieve_adjacency fetch coerced_gt_zero (options : object) (n : Z)
    (records : list object) (props : object)
    (before after : list value) (props_before props_after : object) :
  to_number (currentPage options) = Some n →
  page_of (fetch (formApiRequest options)) = VArr (VObj <$> records) props →
  page_of (fetch (formApiRequest (<["page" := VNum (n - 1)]> options)))
  = VArr before props_before →
  page_of (fetch (formApiRequest (<["page" := VNum (n + 1)]> options)))
  = VArr after props_after →
  ∃ (options' : object) (p : promise (option aggregate)) (result : aggregate),
    retrieve fetch coerced_gt_zero options = Some (options', p) ∧
    settled p = Return (Some result) ∧
    previousPage result = match before with [] => VNull | _ :: _ => VNum (n - 1) end ∧
    nextPage result = match after with [] => VNull | _ :: _ => VNum (n + 1) end.
Proof.
  intros target Hcurrent Hbefore Hafter.
  destruct (retrieve_with_current_page fetch coerced_gt_zero options n target
              records props Hcurrent)
    as (p & result & Hp & Hsettled & Hprevious & Hnext & _).
  exists (<["page" := VNum (n + 1)]> options), p, result.
  split; [exact Hp|]. split; [exact Hsettled|].
  rewrite Hprevious, Hnext.
  rewrite (hint_array _ _ _ _ _ _ Hbefore), (hint_array _ _ _ _ _ _ Hafter).
  split; reflexivity.
Qed.

Example retrieve_end_to_end :
  settled ∘ snd <$> retrieve healthy_source never_positive {["page" := VNum 2]}
  = Some (Return (Some
      {| previousPage := VNum 1; nextPage := VNull; ids := [VNum 1; VNum 2];
         open := [VObj (<["isPrimary" := VBool true]> red_open)];
         closedPrimaryCount := 0 |})).
Proof. vm_compute. reflexivity. Qed.

Example request_logs_server_error :
  let p := request failing_target {["page" := VNum 2]} in
  logged p = [Error "Received 500 response code during fetch"] ∧
  settled p = Return VUndefined.
Proof. vm_compute. split; reflexivity. Qed.

Example retrieve_logs_failed_attachment :
  logged ∘ snd <$> retrieve failing_target never_positive {["page" := VNum 2]}
  = Some [Error "Received 500 response code during fetch"; TypeError].
Proof. vm_compute. reflexivity. Qed.

Lemma formApiRequest_page (options : object) (k : Z) :
  formApiRequest (<["page" := VNum k]> options)
  = {| uri_path := window_path;
       uri_search := {| payload_limit := 10; payload_offset := (k - 1) * 10;
                        payload_color := resolveColor options |} |}.
Proof.
  unfold formApiRequest, generateApiGetRequest, resolvePayload, resolveColor.
  rewrite prop_insert_ne by discriminate.
  rewrite resolveOffset_cases.
  unfold prop at 1. rewrite lookup_insert_eq. reflexivity.
Qed.

(** ** The claims on the call as a whole *)

(** C1: the code departs from the claim.  With page 2 requested, the
    request of page 2 answered by a 500, one record on page 1 and none on
    page 3, the probes are fulfilled with 1 and [null], and [retrieve] is
    fulfilled, without rejection, with the aggregate of an empty page; but
    its [previousPage] and [nextPage] are [undefined], not the results of
    the probes. *)
Theorem retrieve_failed_target_drops_probe_results :
  let options : object := {["page" := VNum 2]} in
  let '(options1, probe1) := peek failing_target options (VNum 1) in
  let '(options2, probe3) := peek failing_target options1 (VNum 3) in
  classify (failing_target (formApiRequest options)) = ServerError 500 ∧
  settled (neighbour never_positive probe1 (VNum 1)) = Return (VNum 1) ∧
  settled (neighbour never_positive probe3 (VNum 3)) = Return VNull ∧
  settled ∘ snd <$> retrieve failing_target never_positive options
  = Some (Return (Some
      {| previousPage := VUndefined; nextPage := VUndefined;
         ids := []; open := []; closedPrimaryCount := 0 |})).
Proof. vm_compute. repeat split; reflexivity. Qed.

(** C4, as stated, fails: when the body of the current page parses to a
    document that is not an array, here [{}], [retrieve] is fulfilled with
    [undefined], not with an aggregate. *)
Lemma retrieve_object_document_no_aggregate :
  classify (object_source (formApiRequest ∅)) = Parsed (VObj ∅) ∧
  settled ∘ snd <$> retrieve object_source never_positive ∅ = Some (Return None).
Proof. split; vm_compute; reflexivity. Qed.

Lemma requestPages_from_evaluated fetch coerced_gt_zero (options : object) :
  requestPages fetch coerced_gt_zero options
  = (previousPage ← js_sub (currentPage options) (VNum 1);
     nextPage ← js_add (currentPage options) (VNum 1);
     Some (requestPages_from fetch coerced_gt_zero options previousPage nextPage)).
Proof.
  unfold requestPages, requestPages_from.
  destruct (js_sub (currentPage options) (VNum 1)) as [previousPage|]; [|reflexivity].
  cbn [mbind option_bind peek].
  destruct (js_add (currentPage options) (VNum 1)); reflexivity.
Qed.

Lemma retrieve_from_evaluated fetch coerced_gt_zero (options : object) :
  retrieve fetch coerced_gt_zero options
  = (previousPage ← js_sub (currentPage options) (VNum 1);
     nextPage ← js_add (currentPage options) (VNum 1);
     Some (retrieve_from fetch coerced_gt_zero options previousPage nextPage)).
Proof.
  unfold retrieve, retrieve_from. rewrite requestPages_from_evaluated.
  destruct (js_sub (currentPage options) (VNum 1)) as [previousPage|]; [|reflexivity].
  destruct (js_add (currentPage options) (VNum 1)) as [nextPage|]; [|reflexivity].
  cbn [mbind option_bind].
  destruct (requestPages_from fetch coerced_gt_zero options previousPage nextPage).
  reflexivity.
Qed.

Lemma settled_retrieve_from fetch coerced_gt_zero (options : object)
    (previousPage nextPage : value) :
  let probed := <["page" := default_arg (VNum 1) previousPage]> options in
  let left := <["page" := default_arg (VNum 1) nextPage]> probed in
  fst (retrieve_from fetch coerced_gt_zero options previousPage nextPage) = left ∧
  settled (snd (retrieve_from fetch coerced_gt_zero options previousPage nextPage))
  = Return
      match transformResponse
              (attached (page_of (fetch (formApiRequest options)))
                 (hint fetch coerced_gt_zero probed previousPage)
                 (hint fetch coerced_gt_zero left nextPage))
              left with
      | Return result => Some result
      | Throw _ => None
      end.
Proof.
  cbv zeta. unfold retrieve_from, requestPages_from, peek. cbn [fst snd].
  split; [reflexivity|].
  rewrite settled_catch_log. f_equal. cbn [settled then_].
  rewrite settled_catch_log. cbn [settled then_ Promise_all].
  rewrite !settled_neighbour, settled_catch_log. cbn [settled then_].
  rewrite settled_request. cbn [mbind completion_bind].
  unfold attached.
  destruct (assign (page_of (fetch (formApiRequest options))) "previousPage" _
            ≫= _) as [response|e];
    cbn [mbind completion_bind]; [|reflexivity].
  destruct (transformResponse response _); reflexivity.
Qed.

(** The page given as the string ["2"]: [currentPage - 1] is 1 and
    [currentPage + 1] is the string ["21"]; the three requests are those of
    offset 0 (a page that is not a number is requested as page 1), and the
    call is fulfilled with an aggregate. *)
Example retrieve_from_string_page :
  let p := snd (retrieve_from healthy_source never_positive
                  {["page" := VStr "2"]} (VNum 1) (VStr "21")) in
  payload_offset ∘ uri_search <$> fetched p = [0; 0; 0] ∧
  settled p
  = Return (Some {| previousPage := VNum 1; nextPage := VStr "21"; ids := [VNum 1];
                    open := [VObj (<["isPrimary" := VBool true]> red_open)];
                    closedPrimaryCount := 0 |}).
Proof. vm_compute. split; reflexivity. Qed.

(** C4, amended: for every options and every outcome of the three fetches,
    whatever [currentPage - 1] and [currentPage + 1] evaluate to (a number,
    or a string as for the page ["2"]), the promise of [retrieve] is never
    rejected.  It is fulfilled with an aggregate when the request of the
    current page yields no value (server error, transport failure, body that
    does not parse), a primitive, or an array of objects; it is fulfilled
    with [undefined] when the body parses to an object that is not an array
    or to an array with an element that is not an object.  [retrieve] is
    this call at the two values [js_sub] and [js_add] compute. *)
Theorem retrieve_never_rejects fetch coerced_gt_zero (options : object)
    (previousPage nextPage : value) :
  retrieve fetch coerced_gt_zero options
  = (previousPage ← js_sub (currentPage options) (VNum 1);
     nextPage ← js_add (currentPage options) (VNum 1);
     Some (retrieve_from fetch coerced_gt_zero options previousPage nextPage)) ∧
  ∃ result : option aggregate,
    settled (snd (retrieve_from fetch coerced_gt_zero options previousPage nextPage))
    = Return result ∧
    aggregable (page_of (fetch (formApiRequest options)))
    = match result with
      | Some _ => true
      | None => false
      end.
Proof.
  split; [apply retrieve_from_evaluated|].
  destruct (settled_retrieve_from fetch coerced_gt_zero options previousPage nextPage)
    as [_ Hsettled].
  eexists. split; [exact Hsettled|].
  destruct (page_of (fetch (formApiRequest options))) as [| | | | |props|elems props];
    try reflexivity.
  rewrite attached_array. cbn [aggregable].
  destruct (forallb is_object elems) eqn:Helems.
  - destruct (transformResponse_array_of_objects elems
                (<["nextPage" := hint fetch coerced_gt_zero
                                   (<["page" := default_arg (VNum 1) nextPage]>
                                      (<["page" := default_arg (VNum 1) previousPage]>
                                         options)) nextPage]>
                   (<["previousPage" := hint fetch coerced_gt_zero
                                          (<["page" := default_arg (VNum 1) previousPage]>
                                             options)
                                          previousPage]> props))
                (<["page" := default_arg (VNum 1) nextPage]>
                   (<["page" := default_arg (VNum 1) previousPage]> options)) Helems)
      as (result & -> & _).
    reflexivity.
  - rewrite transformResponse_throws by exact Helems. reflexivity.
Qed.

(** C5: the code departs from the claim, by the defect of C1.  With page 2
    requested, one record on page 1 and none on page 3, the rule gives
    [previousPage] = 1 and [nextPage] = [null]; when the request of page 2
    itself is answered by a 500, the aggregate has [undefined] for both.
    (With a current page that is an array of records the rule holds:
    [retrieve_adjacency], [hint_no_value].) *)
Theorem failed_target_breaks_adjacency :
  let options : object := {["page" := VNum 2]} in
  to_number (currentPage options) = Some 2 ∧
  page_of (failing_target (formApiRequest (<["page" := VNum (2 - 1)]> options)))
  = VArr [VObj red_open] ∅ ∧
  page_of (failing_target (formApiRequest (<["page" := VNum (2 + 1)]> options)))
  = VArr [] ∅ ∧
  ∃ result : aggregate,
    settled ∘ snd <$> retrieve failing_target never_positive options
    = Some (Return (Some result)) ∧
    previousPage result = VUndefined ∧ previousPage result ≠ VNum (2 - 1) ∧
    nextPage result = VUndefined ∧ nextPage result ≠ VNull.
Proof.
  cbv zeta. split; [reflexivity|]. split; [vm_compute; reflexivity|].
  split; [vm_compute; reflexivity|].
  eexists. split; [vm_compute; reflexivity|].
  repeat split; discriminate.
Qed.

(** C6: when the target page is 1, the probe of the previous page is the
    request of page 0, whose offset is -10, the negated limit; the request
    is issued as the second of the three, with this offset in its query. *)
Theorem previous_probe_of_page_one fetch coerced_gt_zero (options : object) :
  currentPage options = VNum 1 →
  let probe :=
    {| uri_path := window_path;
       uri_search := {| payload_limit := 10; payload_offset := -10;
                        payload_color := resolveColor options |} |} in
  js_sub (currentPage options) (VNum 1) = Some (VNum 0) ∧
  resolveOffset (<["page" := VNum 0]> options) = - limit defaultRequestOptions ∧
  fetched (snd (peek fetch options (VNum 0))) = [probe] ∧
  ∃ (options' : object) (p : promise value),
    requestPages fetch coerced_gt_zero options = Some (options', p) ∧
    length (fetched p) = 3%nat ∧
    fetched p !! 1%nat = Some probe.
Proof.
  intros Hpage probe.
  assert (to_number (currentPage options) = Some 1) as target
    by (rewrite Hpage; reflexivity).
  split; [rewrite Hpage; reflexivity|].
  split; [rewrite resolveOffset_cases; unfold prop; rewrite lookup_insert_eq;
          reflexivity|].
  split; [cbn [peek snd default_arg]; rewrite fetched_request, formApiRequest_page;
          reflexivity|].
  destruct (requestPages_numbered fetch coerced_gt_zero options 1 target)
    as (p & Hp & Hfetched & _).
  eexists _, p. split; [exact Hp|]. rewrite Hfetched. split; [reflexivity|].
  cbn [lookup list_lookup]. rewrite formApiRequest_page. reflexivity.
Qed.

Lemma previous_probe_of_page_one_witness :
  currentPage (∅ : object) = VNum 1 ∧
  let probe :=
    {| uri_path := window_path;
       uri_search := {| payload_limit := 10; payload_offset := -10;
                        payload_color := resolveColor ∅ |} |} in
  js_sub (currentPage (∅ : object)) (VNum 1) = Some (VNum 0) ∧
  resolveOffset (<["page" := VNum 0]> ∅) = - limit defaultRequestOptions ∧
  fetched (snd (peek healthy_source ∅ (VNum 0))) = [probe] ∧
  ∃ (options' : object) (p : promise value),
    requestPages healthy_source never_positive ∅ = Some (options', p) ∧
    length (fetched p) = 3%nat ∧
    fetched p !! 1%nat = Some probe.
Proof.
  split; [reflexivity|].
  apply (previous_probe_of_page_one healthy_source never_positive ∅). reflexivity.
Defined.

(** C9: [retrieve] writes into the caller's options.  For every options
    whose target page is the integer n, the object the call leaves, once the
    probes are launched by [requestPages] and when the promise of
    [retrieve] is settled, is the caller's object with [page] set to n + 1,
    which is not the page the caller passed. *)
Theorem retrieve_leaves_next_page_in_options fetch coerced_gt_zero
    (options : object) (n : Z) :
  to_number (currentPage options) = Some n →
  ∃ (options' : object) (pages : promise value) (p : promise (option aggregate)),
    requestPages fetch coerced_gt_zero options = Some (options', pages) ∧
    retrieve fetch coerced_gt_zero options = Some (options', p) ∧
    options' = <["page" := VNum (n + 1)]> options ∧
    prop options' "page" = VNum (n + 1) ∧
    prop options' "page" ≠ prop options "page".
Proof.
  intros target.
  destruct (requestPages_numbered fetch coerced_gt_zero options n target)
    as (pages & Hpages & _).
  destruct (retrieve_numbered fetch coerced_gt_zero options n target)
    as (p & Hp & _).
  eexists _, pages, p. split; [exact Hpages|]. split; [exact Hp|].
  split; [reflexivity|].
  assert (prop (<["page" := VNum (n + 1)]> options) "page" = VNum (n + 1)) as Hnew
    by (unfold prop; rewrite lookup_insert_eq; reflexivity).
  split; [exact Hnew|]. rewrite Hnew. intros Hold.
  unfold currentPage, js_or in target. rewrite <- Hold in target.
  cbn [truthy] in target. destruct (n + 1 =? 0) eqn:Hzero; cbn in target.
  - injection target as <-. discriminate.
  - injection target as Hn. lia.
Qed.

Lemma retrieve_leaves_next_page_in_options_witness :
  to_number (currentPage {["page" := VNum 2]}) = Some 2 ∧
  ∃ (options' : object) (pages : promise value) (p : promise (option aggregate)),
    requestPages healthy_source never_positive {["page" := VNum 2]}
    = Some (options', pages) ∧
    retrieve healthy_source never_positive {["page" := VNum 2]} = Some (options', p) ∧
    options' = <["page" := VNum (2 + 1)]> {["page" := VNum 2]} ∧
    prop options' "page" = VNum (2 + 1) ∧
    prop options' "page" ≠ prop ({["page" := VNum 2]} : object) "page".
Proof.
  split; [reflexivity|].
  apply (retrieve_leaves_next_page_in_options healthy_source never_positive
           {["page" := VNum 2]} 2).
  reflexivity.
Defined.

(** * Further properties of the code *)

(** ** Option resolution and the request *)

(** X1: The windows of [calculateOffset], for any positive limit: the window of
    a page ends where the window of the next page starts, and the windows
    of two different pages do not overlap. *)
Theorem calculateOffset_windows (page page' limit : Z) :
  0 < limit → page < page' →
  calculateOffset (page + 1) limit = calculateOffset page limit + limit ∧
  calculateOffset page limit + limit ≤ calculateOffset page' limit.
Proof. unfold calculateOffset. intros Hlimit Hpages. split; nia. Qed.

Lemma calculateOffset_windows_witness :
  0 < 10 ∧ 1 < 3 ∧
  calculateOffset (1 + 1) 10 = calculateOffset 1 10 + 10 ∧
  calculateOffset 1 10 + 10 ≤ calculateOffset 3 10.
Proof.
  split; [lia|]. split; [lia|]. apply (calculateOffset_windows 1 3 10); lia.
Defined.

(** X2: The request is made from the [page] and the [colors] of the options and
    from nothing else: options that agree on the two give the same request,
    whose limit is 10 and whose endpoint is the configured path, whatever
    else (a [limit], say) the caller put in. *)
Theorem formApiRequest_reads_page_and_colors (options options' : object) :
  prop options "page" = prop options' "page" →
  prop options "colors" = prop options' "colors" →
  formApiRequest options = formApiRequest options' ∧
  payload_limit (uri_search (formApiRequest options)) = 10 ∧
  uri_path (formApiRequest options) = "http://localhost:3000/records".
Proof.
  intros Hpage Hcolors.
  unfold formApiRequest, generateApiGetRequest, resolvePayload, resolveOffset,
    resolveColor.
  rewrite Hpage, Hcolors. repeat split.
Qed.

Lemma formApiRequest_reads_page_and_colors_witness :
  prop ({["page" := VNum 2]} : object) "page" = prop page_two_with_limit "page" ∧
  prop ({["page" := VNum 2]} : object) "colors" = prop page_two_with_limit "colors" ∧
  formApiRequest {["page" := VNum 2]} = formApiRequest page_two_with_limit ∧
  payload_limit (uri_search (formApiRequest {["page" := VNum 2]})) = 10 ∧
  uri_path (formApiRequest {["page" := VNum 2]}) = "http://localhost:3000/records".
Proof.
  split; [reflexivity|]. split; [reflexivity|].
  apply (formApiRequest_reads_page_and_colors {["page" := VNum 2]} page_two_with_limit);
    reflexivity.
Defined.

(** ** The transformation *)

Lemma filter_disjoint_length {A : Type} (f g : A → bool) (l : list A) :
  (∀ x, f x && g x = false) →
  (length (List.filter f l) + length (List.filter g l) ≤ length l)%nat.
Proof.
  intros Hdisjoint. induction l as [|x l IH]; [reflexivity|].
  cbn [List.filter]. specialize (Hdisjoint x).
  destruct (f x), (g x); try discriminate; cbn [length]; lia.
Qed.

Lemma open_not_closed (record : object) :
  has_disposition "open" record
  && (has_disposition "closed" record && isPrimary record) = false.
Proof.
  unfold has_disposition.
  destruct (record !! "disposition") as [[| | | |d| |]|]; try reflexivity.
  destruct (String.eqb_spec d "open") as [->|]; reflexivity.
Qed.

(** X3: The identifiers of the aggregate are the [id]s of the records of the
    page, one for each record and in the order of the page; a record without
    [id] contributes [undefined]. *)
Theorem ids_follow_the_page (records : list object) (props options : object) :
  ∃ result : aggregate,
    transformResponse (VArr (VObj <$> records) props) options = Return result ∧
    length (ids result) = length records ∧
    ∀ (i : nat) (record : object),
      records !! i = Some record →
      ids result !! i = Some (default VUndefined (record !! "id")).
Proof.
  exists (aggregate_of records props).
  split; [apply transformResponse_objects|]. cbn [ids aggregate_of].
  split; [apply length_fmap|].
  intros i record Hrecord. rewrite list_lookup_fmap, Hrecord. reflexivity.
Qed.

(** X4: The sizes of the aggregate: no record is both listed as open and
    counted as closed primary, so the two together never exceed the page;
    the count is never negative. *)
Theorem aggregate_sizes (records : list object) (props options : object) :
  ∃ result : aggregate,
    transformResponse (VArr (VObj <$> records) props) options = Return result ∧
    0 ≤ closedPrimaryCount result ∧
    Z.of_nat (length (open result)) + closedPrimaryCount result
    ≤ Z.of_nat (length records) ∧
    length (ids result) = length records.
Proof.
  exists (aggregate_of records props).
  split; [apply transformResponse_objects|].
  cbn [ids open closedPrimaryCount aggregate_of]. rewrite !length_fmap.
  pose proof (filter_disjoint_length (has_disposition "open")
                (λ record, has_disposition "closed" record && isPrimary record)
                records open_not_closed).
  repeat split; lia.
Qed.

Lemma has_disposition_stale (d : string) (x : value) (record : object) :
  has_disposition d (<["isPrimary" := x]> record) = has_disposition d record.
Proof.
  unfold has_disposition. rewrite lookup_insert_ne by discriminate. reflexivity.
Qed.

Lemma isPrimary_stale (x : value) (record : object) :
  isPrimary (<["isPrimary" := x]> record) = isPrimary record.
Proof. unfold isPrimary. rewrite lookup_insert_ne by discriminate. reflexivity. Qed.

Lemma amended_stale (x : value) (record : object) :
  amended (<["isPrimary" := x]> record) = amended record.
Proof. unfold amended. rewrite isPrimary_stale. apply insert_insert_eq. Qed.

Lemma open_stale (stale : object → value) (records : list object) :
  amended <$> List.filter (has_disposition "open")
                ((λ record, <["isPrimary" := stale record]> record) <$> records)
  = amended <$> List.filter (has_disposition "open") records.
Proof.
  induction records as [|record records IH]; [reflexivity|].
  rewrite fmap_cons. cbn [List.filter]. rewrite has_disposition_stale.
  destruct (has_disposition "open" record); [|exact IH].
  rewrite !fmap_cons, amended_stale, IH. reflexivity.
Qed.

Lemma closed_primary_stale (stale : object → value) (records : list object) :
  length (List.filter (λ record, has_disposition "closed" record && isPrimary record)
            ((λ record, <["isPrimary" := stale record]> record) <$> records))
  = length (List.filter (λ record, has_disposition "closed" record && isPrimary record)
              records).
Proof.
  induction records as [|record records IH]; [reflexivity|].
  rewrite fmap_cons. cbn [List.filter].
  rewrite has_disposition_stale, isPrimary_stale.
  destruct (has_disposition "closed" record && isPrimary record);
    cbn [length]; rewrite IH; reflexivity.
Qed.

(** X5: An [isPrimary] that the data source sent with a record has no influence:
    the derivation overwrites it, so the aggregate is the one of the records
    without it. *)
Theorem stale_isPrimary_is_overwritten (stale : object → value)
    (records : list object) (props options : object) :
  transformResponse
    (VArr (VObj <$> ((λ record, <["isPrimary" := stale record]> record) <$> records))
       props) options
  = transformResponse (VArr (VObj <$> records) props) options.
Proof.
  rewrite !transformResponse_objects. f_equal. unfold aggregate_of.
  rewrite open_stale, closed_primary_stale. f_equal.
  rewrite <- list_fmap_compose. apply list_fmap_ext. intros _ record _.
  unfold compose. apply prop_insert_ne. discriminate.
Qed.

Lemma amended_keeps_fields (record : object) (k : string) :
  k ≠ "isPrimary" → amended record !! k = record !! k.
Proof. intros Hk. unfold amended. apply lookup_insert_ne. congruence. Qed.

(** X6: The records returned as open are the records received, field for field:
    apart from [isPrimary], every property of a returned record is the one
    of the corresponding open record of the page, present or absent alike. *)
Theorem open_records_keep_their_fields (records : list object) (props options : object) :
  ∃ (result : aggregate) (returned : list object),
    transformResponse (VArr (VObj <$> records) props) options = Return result ∧
    open result = VObj <$> returned ∧
    Forall2 (λ out received : object,
               ∀ k : string, k ≠ "isPrimary" → out !! k = received !! k)
      returned (List.filter (has_disposition "open") records).
Proof.
  exists (aggregate_of records props),
    (amended <$> List.filter (has_disposition "open") records).
  split; [apply transformResponse_objects|]. split; [reflexivity|].
  apply Forall2_fmap_l, Forall_Forall2_diag, Forall_forall.
  intros record _ k Hk. apply amended_keeps_fields, Hk.
Qed.

(** X7: What [resolveResponse] leaves in the array it was given: the same
    number of records in the same order, each with [isPrimary] set to the
    derived boolean and every other property as it was, and the named
    properties of the array untouched. *)
Theorem resolveResponse_flags_every_record (records : list object)
    (props options : object) :
  ∃ (result : aggregate) (flagged : list object),
    resolveResponse (VArr (VObj <$> records) props) options
    = Return (VArr (VObj <$> flagged) props, result) ∧
    Forall2 (λ out received : object,
               out !! "isPrimary" = Some (VBool (isPrimary received)) ∧
               ∀ k : string, k ≠ "isPrimary" → out !! k = received !! k)
      flagged records.
Proof.
  exists (aggregate_of records props), (amended <$> records).
  split; [apply resolveResponse_objects|].
  apply Forall2_fmap_l, Forall_Forall2_diag, Forall_forall.
  intros record _. split; [apply lookup_isPrimary_amended|].
  intros k Hk. apply amended_keeps_fields, Hk.
Qed.

(** X8: When [transformResponse] throws: it returns an aggregate for
    [undefined] and for an array whose elements are all objects; for [null],
    a boolean, a number, a string, an object that is not an array, and an
    array with an element that is not an object, it throws a [TypeError]. *)
Theorem transformResponse_throws_on_malformed_pages (response : value)
    (options : object) :
  match transformResponse response options with
  | Return _ => transformable response = true
  | Throw e => e = TypeError ∧ transformable response = false
  end.
Proof.
  destruct response as [| | | | | |elems props];
    try reflexivity; try (split; reflexivity).
  cbn [transformable]. destruct (forallb is_object elems) eqn:Helems.
  - destruct (transformResponse_array_of_objects elems props options Helems)
      as (result & -> & _).
    reflexivity.
  - rewrite transformResponse_throws by exact Helems. split; reflexivity.
Qed.

(** ** What is reported on the console *)

Lemma logged_catch_log {A : Type} (undefined : A) (p : promise A) :
  logged (catch_log undefined p)
  = logged p ++ match settled p with
                | Return _ => []
                | Throw e => [e]
                end.
Proof.
  unfold catch_log. destruct (settled p); [|reflexivity].
  symmetry. apply app_nil_r.
Qed.

Lemma logged_request fetch (options : object) :
  logged (request fetch options)
  = match fetch (formApiRequest options) with
    | Throw e => [e]
    | Return r =>
        match classify (Return r) with
        | NetworkFailure | AmbiguousStatus _ | Parsed _ => []
        | MalformedBody =>
            match json r with
            | Return _ => []
            | Throw e => [e]
            end
        | ServerError status =>
            if status =? 400 then []
            else [Error ("Received " +:+ pretty status
                         +:+ " response code during fetch")]
        end
    end.
Proof.
  unfold request. rewrite logged_catch_log. cbn [logged settled then_ app].
  destruct (fetch (formApiRequest options)) as [r|e]; [|reflexivity].
  cbn [mbind completion_bind classify]. unfold ok.
  destruct (Z.leb_spec 200 (status r)), (Z.leb_spec (status r) 299),
    (Z.ltb_spec (status r) 300), (Z.ltb_spec 400 (status r)),
    (Z.leb_spec 400 (status r)), (Z.ltb_spec (status r) 600);
    cbn [andb]; try lia; try reflexivity;
    try (destruct (json r); reflexivity);
    destruct (Z.eqb_spec (status r) 400); try lia; reflexivity.
Qed.

(** X9: A request reports at most one error, and reports these: the rejection
    of the fetch, the rejection of the parse of a 2xx body, and a status
    from 401 to 599 (with the status in the message).  A status of exactly
    400, like every status outside 2xx and [400, 600), gives no value
    without any report. *)
Theorem request_reports_failures fetch (options : object) :
  (length (logged (request fetch options)) ≤ 1)%nat ∧
  logged (request fetch options)
  = match fetch (formApiRequest options) with
    | Throw e => [e]
    | Return r =>
        match classify (Return r) with
        | NetworkFailure | AmbiguousStatus _ | Parsed _ => []
        | MalformedBody =>
            match json r with
            | Return _ => []
            | Throw e => [e]
            end
        | ServerError status =>
            if status =? 400 then []
            else [Error ("Received " +:+ pretty status
                         +:+ " response code during fetch")]
        end
    end.
Proof.
  split; [|apply logged_request]. rewrite logged_request.
  destruct (fetch (formApiRequest options)) as [r|e]; [|reflexivity].
  destruct (classify (Return r)) as [|s|s| |document]; cbn [length]; try lia.
  - destruct (s =? 400); cbn [length]; lia.
  - destruct (json r); cbn [length]; lia.
Qed.

Lemma then_Return_request fetch (options : object) :
  catch_log VUndefined (then_ (request fetch options) Return) = request fetch options.
Proof.
  pose proof (settled_request fetch options) as Hsettled.
  destruct (request fetch options) as [requests entries completion].
  cbn [settled] in Hsettled. subst completion. reflexivity.
Qed.

(** X10: The chain [.then(response => response).catch(...)] that [requestPages]
    puts on the request of the current page does nothing: the promise it
    gives settles as the request does, after the same requests and the same
    reports. *)
Theorem current_page_chain_is_the_request fetch (options : object) :
  catch_log VUndefined (then_ (request fetch options) Return) = request fetch options ∧
  ∃ response : value, settled (request fetch options) = Return response.
Proof.
  split; [apply then_Return_request|].
  rewrite settled_request. eexists. reflexivity.
Qed.

Lemma logged_neighbour fetch coerced_gt_zero (probe_options : object) (page : value) :
  logged (neighbour coerced_gt_zero (request fetch probe_options) page)
  = logged (request fetch probe_options)
    ++ match has_records coerced_gt_zero
               (page_of (fetch (formApiRequest probe_options))) with
       | Return _ => []
       | Throw e => [e]
       end.
Proof.
  unfold neighbour. rewrite logged_catch_log. cbn [logged settled then_].
  rewrite settled_request. cbn [mbind completion_bind].
  destruct (has_records _ _); reflexivity.
Qed.

Lemma logged_request_object fetch (options : object) :
  is_object (page_of (fetch (formApiRequest options))) = true →
  logged (request fetch options) = [].
Proof.
  rewrite logged_request. unfold page_of.
  destruct (fetch (formApiRequest options)) as [r|e]; [|discriminate].
  destruct (classify (Return r)); try discriminate. reflexivity.
Qed.

Lemma hint_plain_page fetch coerced_gt_zero (probe_options : object) (page : value) :
  plain_page (page_of (fetch (formApiRequest probe_options))) = true →
  hint fetch coerced_gt_zero probe_options page
  = if has_elements (page_of (fetch (formApiRequest probe_options)))
    then page else VNull.
Proof.
  unfold hint.
  destruct (page_of (fetch (formApiRequest probe_options))) as [| | | | | |[|x elems] props];
    try discriminate; reflexivity.
Qed.

(** ** The requests and the effects of a call *)

Section Effects.

Variable fetch : uri → completion response.
Variable coerced_gt_zero : value → completion bool.
Variable options : object.
Variable n : Z.
Hypothesis target : to_number (currentPage options) = Some n.

(** The offset of the request of the current page: the one of the target
    page, except for a page given as the number 0, which is requested as
    such although the target page is then 1. *)
Lemma resolveOffset_target :
  resolveOffset options
  = match prop options "page" with
    | VNum 0 => -10
    | _ => (n - 1) * 10
    end.
Proof.
  rewrite resolveOffset_cases. revert target. unfold currentPage, js_or.
  destruct (prop options "page") as [| |[]|k|s| |]; cbn [truthy to_number];
    try (intros [= <-]; reflexivity); try discriminate.
  - destruct (Z.eqb_spec k 0) as [->|Hk]; cbn [negb to_number].
    + intros [= <-]. reflexivity.
    + intros [= <-]. destruct k; reflexivity.
  - destruct (String.eqb s ""); cbn [negb to_number]; [|discriminate].
    intros [= <-]. reflexivity.
Qed.

Lemma requestPages_logged (options' : object) (p : promise value) :
  requestPages fetch coerced_gt_zero options = Some (options', p) →
  logged p
  = (logged (request fetch options)
     ++ logged (neighbour coerced_gt_zero
                  (request fetch (<["page" := VNum (n - 1)]> options)) (VNum (n - 1)))
     ++ logged (neighbour coerced_gt_zero
                  (request fetch (<["page" := VNum (n + 1)]> options)) (VNum (n + 1))))
    ++ (if is_object (page_of (fetch (formApiRequest options))) then []
        else [TypeError]).
Proof.
  unfold requestPages, js_sub, js_add, peek. rewrite target.
  cbn [mbind option_bind to_number]. rewrite insert_insert_eq.
  intros [= _ <-]. rewrite logged_catch_log.
  cbn [logged settled then_ Promise_all].
  rewrite then_Return_request, !settled_neighbour, settled_request.
  cbn [mbind completion_bind]. f_equal.
  destruct (page_of (fetch (formApiRequest options))); reflexivity.
Qed.

Lemma retrieve_logged (options' : object) (p : promise (option aggregate)) :
  retrieve fetch coerced_gt_zero options = Some (options', p) →
  ∃ pages : promise value,
    requestPages fetch coerced_gt_zero options = Some (options', pages) ∧
    logged p
    = logged pages ++ match settled pages
                            ≫= λ response, transformResponse response options' with
                      | Return _ => []
                      | Throw e => [e]
                      end.
Proof.
  unfold retrieve.
  destruct (requestPages fetch coerced_gt_zero options) as [[options1 pages]|];
    [|discriminate].
  cbn [mbind option_bind]. intros [= <- <-]. exists pages. split; [reflexivity|].
  rewrite logged_catch_log. cbn [logged settled then_]. f_equal.
  destruct (settled pages) as [response|]; [|reflexivity].
  cbn [mbind completion_bind]. destruct (transformResponse _ _); reflexivity.
Qed.

End Effects.

Lemma formApiRequest_window (options : object) :
  formApiRequest options = window_request (resolveColor options) (resolveOffset options).
Proof. reflexivity. Qed.

(** X11: Every call issues exactly three requests, whatever the answers are: the
    current page, then the page before, then the page after.  They go to
    the same endpoint with limit 10 and the colour filter of the caller;
    their offsets are those of the pages n, n - 1 and n + 1 for the target
    page n, except that a page given as the number 0 is itself requested
    (offset -10) while the probes are those of target page 1. *)
Theorem retrieve_issues_three_requests fetch coerced_gt_zero (options : object) (n : Z) :
  to_number (currentPage options) = Some n →
  ∃ (options' : object) (p : promise (option aggregate)),
    retrieve fetch coerced_gt_zero options = Some (options', p) ∧
    fetched p
    = window_request (resolveColor options)
      <$> [match prop options "page" with
           | VNum 0 => -10
           | _ => (n - 1) * 10
           end;
           (n - 2) * 10;
           n * 10].
Proof.
  intros target.
  destruct (retrieve_numbered fetch coerced_gt_zero options n target)
    as (p & Hp & Hfetched & _).
  eexists _, p. split; [exact Hp|]. rewrite Hfetched.
  rewrite formApiRequest_window, (resolveOffset_target options n target).
  rewrite !formApiRequest_page. cbn [fmap list_fmap]. unfold window_request.
  replace (n - 1 - 1) with (n - 2) by lia. replace (n + 1 - 1) with n by lia.
  reflexivity.
Qed.

Lemma retrieve_issues_three_requests_witness :
  to_number (currentPage {["page" := VNum 0]}) = Some 1 ∧
  ∃ (options' : object) (p : promise (option aggregate)),
    retrieve healthy_source never_positive {["page" := VNum 0]} = Some (options', p) ∧
    fetched p
    = window_request (resolveColor {["page" := VNum 0]})
      <$> [match prop ({["page" := VNum 0]} : object) "page" with
           | VNum 0 => -10
           | _ => (1 - 1) * 10
           end;
           (1 - 2) * 10;
           1 * 10].
Proof.
  split; [reflexivity|].
  apply (retrieve_issues_three_requests healthy_source never_positive
           {["page" := VNum 0]} 1).
  reflexivity.
Defined.

(** X12: A call writes nothing into the caller's options besides [page]: every
    other property, [colors] among them, is after the call what it was
    before, present or absent alike. *)
Theorem retrieve_changes_only_page fetch coerced_gt_zero (options : object) (n : Z) :
  to_number (currentPage options) = Some n →
  ∃ (options' : object) (p : promise (option aggregate)),
    retrieve fetch coerced_gt_zero options = Some (options', p) ∧
    (∀ k : string, k ≠ "page" → options' !! k = options !! k) ∧
    resolveColor options' = resolveColor options.
Proof.
  intros target.
  destruct (retrieve_numbered fetch coerced_gt_zero options n target) as (p & Hp & _).
  eexists _, p. split; [exact Hp|]. split.
  - intros k Hk. apply lookup_insert_ne. congruence.
  - unfold resolveColor. rewrite prop_insert_ne by discriminate. reflexivity.
Qed.

Lemma retrieve_changes_only_page_witness :
  to_number (currentPage page_two_with_limit) = Some 2 ∧
  ∃ (options' : object) (p : promise (option aggregate)),
    retrieve healthy_source never_positive page_two_with_limit = Some (options', p) ∧
    (∀ k : string, k ≠ "page" → options' !! k = page_two_with_limit !! k) ∧
    resolveColor options' = resolveColor page_two_with_limit.
Proof.
  split; [reflexivity|].
  apply (retrieve_changes_only_page healthy_source never_positive page_two_with_limit 2).
  reflexivity.
Defined.

(** X13: [requestPages] never rejects.  Its promise is fulfilled with the parsed
    page of the current request, elements untouched, carrying the two page
    numbers as properties, when that page is an array or an object; and with
    [undefined] when the request gave no value or a primitive. *)
Theorem requestPages_attaches_page_numbers fetch coerced_gt_zero
    (options : object) (n : Z) :
  to_number (currentPage options) = Some n →
  ∃ (options' : object) (p : promise value),
    requestPages fetch coerced_gt_zero options = Some (options', p) ∧
    let previous :=
      hint fetch coerced_gt_zero (<["page" := VNum (n - 1)]> options) (VNum (n - 1)) in
    let next :=
      hint fetch coerced_gt_zero (<["page" := VNum (n + 1)]> options) (VNum (n + 1)) in
    settled p
    = Return match page_of (fetch (formApiRequest options)) with
             | VArr elems props =>
                 VArr elems (<["nextPage" := next]> (<["previousPage" := previous]> props))
             | VObj props =>
                 VObj (<["nextPage" := next]> (<["previousPage" := previous]> props))
             | VUndefined | VNull | VBool _ | VNum _ | VStr _ => VUndefined
             end.
Proof.
  intros target.
  destruct (requestPages_numbered fetch coerced_gt_zero options n target)
    as (p & Hp & _ & Hsettled).
  eexists _, p. split; [exact Hp|]. cbv zeta. rewrite Hsettled. f_equal.
  destruct (page_of (fetch (formApiRequest options))); reflexivity.
Qed.

Lemma requestPages_attaches_page_numbers_witness :
  to_number (currentPage {["page" := VNum 2]}) = Some 2 ∧
  ∃ (options' : object) (p : promise value),
    requestPages healthy_source never_positive {["page" := VNum 2]}
    = Some (options', p) ∧
    settled p
    = Return (VArr [VObj red_open; VObj green_closed]
                {["previousPage" := VNum 1; "nextPage" := VNull]}).
Proof.
  split; [reflexivity|].
  destruct (requestPages_attaches_page_numbers healthy_source never_positive
              {["page" := VNum 2]} 2) as (options' & p & Hp & Hsettled);
    [reflexivity|].
  exists options', p. split; [exact Hp|]. rewrite Hsettled. vm_compute. reflexivity.
Defined.

(** ** The aggregate of a call *)

(** X14: When the request of the current page is answered by an array of
    records, the call is fulfilled with their aggregate, whatever the probes
    do: the identifiers in the order of the page, the open records in that
    order with [isPrimary] written into them, and the number of closed
    records of a primary colour. *)
Theorem retrieve_aggregates_the_current_page fetch coerced_gt_zero
    (options : object) (n : Z) (records : list object) (props : object) :
  to_number (currentPage options) = Some n →
  page_of (fetch (formApiRequest options)) = VArr (VObj <$> records) props →
  ∃ (options' : object) (p : promise (option aggregate)) (result : aggregate),
    retrieve fetch coerced_gt_zero options = Some (options', p) ∧
    settled p = Return (Some result) ∧
    ids result = (λ record, default VUndefined (record !! "id")) <$> records ∧
    open result
    = (λ record, VObj (<["isPrimary" := VBool (isPrimary record)]> record))
      <$> List.filter (has_disposition "open") records ∧
    closedPrimaryCount result
    = Z.of_nat (length (List.filter
                          (λ record, has_disposition "closed" record && isPrimary record)
                          records)).
Proof.
  intros target Hcurrent.
  destruct (retrieve_with_current_page fetch coerced_gt_zero options n target
              records props Hcurrent)
    as (p & result & Hp & Hsettled & _ & _ & Hids & Hopen & Hcount).
  eexists _, p, result. split; [exact Hp|]. split; [exact Hsettled|].
  split; [exact Hids|]. split; [|exact Hcount].
  rewrite Hopen, <- list_fmap_compose. reflexivity.
Qed.

Lemma retrieve_aggregates_the_current_page_witness :
  to_number (currentPage {["page" := VNum 2]}) = Some 2 ∧
  page_of (healthy_source (formApiRequest {["page" := VNum 2]}))
  = VArr (VObj <$> [red_open; green_closed]) ∅ ∧
  ∃ (options' : object) (p : promise (option aggregate)) (result : aggregate),
    retrieve healthy_source never_positive {["page" := VNum 2]} = Some (options', p) ∧
    settled p = Return (Some result) ∧
    ids result
    = (λ record, default VUndefined (record !! "id")) <$> [red_open; green_closed] ∧
    open result
    = (λ record, VObj (<["isPrimary" := VBool (isPrimary record)]> record))
      <$> List.filter (has_disposition "open") [red_open; green_closed] ∧
    closedPrimaryCount result
    = Z.of_nat (length (List.filter
                          (λ record, has_disposition "closed" record && isPrimary record)
                          [red_open; green_closed])).
Proof.
  split; [reflexivity|]. split; [reflexivity|].
  apply (retrieve_aggregates_the_current_page healthy_source never_positive
           {["page" := VNum 2]} 2 [red_open; green_closed] ∅); reflexivity.
Defined.

(** X15: The page numbers of the aggregate, when the current page arrived as an
    array of records and each probe got an array or no value: [previousPage]
    is the number of the page before when the probe of that page got at
    least one element, and [null] when it got an empty array or no value (a
    failed probe cannot be told from an empty page); [nextPage] likewise. *)
Theorem retrieve_page_numbers fetch coerced_gt_zero
    (options : object) (n : Z) (records : list object) (props : object) :
  to_number (currentPage options) = Some n →
  page_of (fetch (formApiRequest options)) = VArr (VObj <$> records) props →
  plain_page (page_of (fetch (formApiRequest (<["page" := VNum (n - 1)]> options))))
  = true →
  plain_page (page_of (fetch (formApiRequest (<["page" := VNum (n + 1)]> options))))
  = true →
  ∃ (options' : object) (p : promise (option aggregate)) (result : aggregate),
    retrieve fetch coerced_gt_zero options = Some (options', p) ∧
    settled p = Return (Some result) ∧
    previousPage result
    = (if has_elements
            (page_of (fetch (formApiRequest (<["page" := VNum (n - 1)]> options))))
       then VNum (n - 1) else VNull) ∧
    nextPage result
    = (if has_elements
            (page_of (fetch (formApiRequest (<["page" := VNum (n + 1)]> options))))
       then VNum (n + 1) else VNull).
Proof.
  intros target Hcurrent Hbefore Hafter.
  destruct (retrieve_with_current_page fetch coerced_gt_zero options n target
              records props Hcurrent)
    as (p & result & Hp & Hsettled & Hprevious & Hnext & _).
  eexists _, p, result. split; [exact Hp|]. split; [exact Hsettled|].
  rewrite Hprevious, Hnext.
  rewrite (hint_plain_page _ _ _ _ Hbefore), (hint_plain_page _ _ _ _ Hafter).
  split; reflexivity.
Qed.

Lemma retrieve_page_numbers_witness :
  to_number (currentPage {["page" := VNum 2]}) = Some 2 ∧
  page_of (healthy_source (formApiRequest {["page" := VNum 2]}))
  = VArr (VObj <$> [red_open; green_closed]) ∅ ∧
  plain_page (page_of (healthy_source
                         (formApiRequest (<["page" := VNum (2 - 1)]> {["page" := VNum 2]}))))
  = true ∧
  plain_page (page_of (healthy_source
                         (formApiRequest (<["page" := VNum (2 + 1)]> {["page" := VNum 2]}))))
  = true ∧
  ∃ (options' : object) (p : promise (option aggregate)) (result : aggregate),
    retrieve healthy_source never_positive {["page" := VNum 2]} = Some (options', p) ∧
    settled p = Return (Some result) ∧
    previousPage result = VNum 1 ∧
    nextPage result = VNull.
Proof.
  split; [reflexivity|]. split; [reflexivity|].
  split; [vm_compute; reflexivity|]. split; [vm_compute; reflexivity|].
  destruct (retrieve_page_numbers healthy_source never_positive
              {["page" := VNum 2]} 2 [red_open; green_closed] ∅)
    as (options' & p & result & Hp & Hsettled & Hprevious & Hnext);
    [reflexivity | reflexivity | vm_compute; reflexivity | vm_compute; reflexivity |].
  exists options', p, result. split; [exact Hp|]. split; [exact Hsettled|].
  split; [rewrite Hprevious | rewrite Hnext]; vm_compute; reflexivity.
Defined.

(** X16: What the code does when the request of the current page gives nothing
    the page numbers can be set on (no value, [null] or a primitive), for
    every outcome of the probes: the call is fulfilled with the aggregate of
    an empty page whose [previousPage] and [nextPage] are [undefined], and
    the last report on the console is the [TypeError] of the assignment. *)
Theorem retrieve_without_current_page_is_empty fetch coerced_gt_zero
    (options : object) (n : Z) :
  to_number (currentPage options) = Some n →
  is_object (page_of (fetch (formApiRequest options))) = false →
  ∃ (options' : object) (p : promise (option aggregate)) (earlier : list error),
    retrieve fetch coerced_gt_zero options = Some (options', p) ∧
    settled p
    = Return (Some {| previousPage := VUndefined; nextPage := VUndefined;
                      ids := []; open := []; closedPrimaryCount := 0 |}) ∧
    logged p = earlier ++ [TypeError].
Proof.
  intros target Hcurrent.
  destruct (retrieve_without_current_page fetch coerced_gt_zero options n target
              Hcurrent) as (p & Hp & Hsettled).
  destruct (retrieve_logged fetch coerced_gt_zero options _ p Hp)
    as (pages & Hpages & Hlogged).
  destruct (requestPages_numbered fetch coerced_gt_zero options n target)
    as (pages' & Hpages' & _ & Hpages_settled).
  rewrite Hpages in Hpages'. injection Hpages' as <-.
  rewrite Hpages_settled, (attached_not_object _ _ _ Hcurrent) in Hlogged.
  cbn [mbind completion_bind] in Hlogged.
  rewrite (requestPages_logged fetch coerced_gt_zero options n target _ _ Hpages),
    Hcurrent in Hlogged.
  eexists _, p, _. split; [exact Hp|]. split; [exact Hsettled|].
  rewrite Hlogged. rewrite transformResponse_undefined, app_nil_r. reflexivity.
Qed.

Lemma retrieve_without_current_page_is_empty_witness :
  to_number (currentPage {["page" := VNum 2]}) = Some 2 ∧
  is_object (page_of (failing_target (formApiRequest {["page" := VNum 2]}))) = false ∧
  ∃ (options' : object) (p : promise (option aggregate)) (earlier : list error),
    retrieve failing_target never_positive {["page" := VNum 2]} = Some (options', p) ∧
    settled p
    = Return (Some {| previousPage := VUndefined; nextPage := VUndefined;
                      ids := []; open := []; closedPrimaryCount := 0 |}) ∧
    logged p = earlier ++ [TypeError].
Proof.
  split; [reflexivity|]. split; [reflexivity|].
  apply (retrieve_without_current_page_is_empty failing_target never_positive
           {["page" := VNum 2]} 2); reflexivity.
Defined.

(** X17: Nothing is reported on the console when the three requests are answered
    by arrays and the current page holds records only. *)
Theorem retrieve_is_quiet_on_success fetch coerced_gt_zero
    (options : object) (n : Z) (records : list object) (props : object)
    (before after : list value) (props_before props_after : object) :
  to_number (currentPage options) = Some n →
  page_of (fetch (formApiRequest options)) = VArr (VObj <$> records) props →
  page_of (fetch (formApiRequest (<["page" := VNum (n - 1)]> options)))
  = VArr before props_before →
  page_of (fetch (formApiRequest (<["page" := VNum (n + 1)]> options)))
  = VArr after props_after →
  ∃ (options' : object) (p : promise (option aggregate)),
    retrieve fetch coerced_gt_zero options = Some (options', p) ∧
    logged p = [].
Proof.
  intros target Hcurrent Hbefore Hafter.
  destruct (retrieve_numbered fetch coerced_gt_zero options n target)
    as (p & Hp & _ & _).
  destruct (retrieve_logged fetch coerced_gt_zero options _ p Hp)
    as (pages & Hpages & Hlogged).
  destruct (requestPages_numbered fetch coerced_gt_zero options n target)
    as (pages' & Hpages' & _ & Hpages_settled).
  rewrite Hpages in Hpages'. injection Hpages' as <-.
  eexists _, p. split; [exact Hp|]. rewrite Hlogged, Hpages_settled.
  rewrite (requestPages_logged fetch coerced_gt_zero options n target _ _ Hpages).
  rewrite !logged_neighbour, !logged_request_object
    by (rewrite ?Hcurrent, ?Hbefore, ?Hafter; reflexivity).
  rewrite Hcurrent, Hbefore, Hafter, attached_array.
  cbn [mbind completion_bind]. rewrite transformResponse_objects.
  cbn [is_object has_records truthy get mbind completion_bind String.eqb Ascii.eqb
       Bool.eqb js_gt_zero gt_zero app].
  reflexivity.
Qed.

Lemma retrieve_is_quiet_on_success_witness :
  to_number (currentPage {["page" := VNum 2]}) = Some 2 ∧
  ∃ (options' : object) (p : promise (option aggregate)),
    retrieve healthy_source never_positive {["page" := VNum 2]} = Some (options', p) ∧
    logged p = [].
Proof.
  split; [reflexivity|].
  apply (retrieve_is_quiet_on_success healthy_source never_positive
           {["page" := VNum 2]} 2 [red_open; green_closed] ∅
           [VObj red_open] [] ∅ ∅); vm_compute; reflexivity.
Defined.

(** ** Reusing the options *)

(** X18: [peek] overwrites the page: the request it issues is the one of the
    window of the page it is given, with the colour filter of the options,
    and a [peek] after a [peek] leaves no trace of the first page. *)
Theorem peek_overwrites_page fetch (options : object) (first : value) (k : Z) :
  peek fetch (fst (peek fetch options first)) (VNum k) = peek fetch options (VNum k) ∧
  fst (peek fetch options (VNum k)) = <["page" := VNum k]> options ∧
  fetched (snd (peek fetch options (VNum k)))
  = [window_request (resolveColor options) ((k - 1) * 10)].
Proof.
  unfold peek. cbn [fst snd default_arg]. rewrite insert_insert_eq.
  split; [reflexivity|]. split; [reflexivity|].
  rewrite fetched_request, formApiRequest_page. reflexivity.
Qed.

(** X19: A second call with the object the first call was given does not repeat
    the first: the first call left its page at n + 1, so (unless that is 0)
    the second call targets page n + 1, requests the windows of the pages
    n + 1, n and n + 2, and leaves the page at n + 2. *)
Theorem retrieve_again_advances_the_page fetch coerced_gt_zero
    (options : object) (n : Z) :
  to_number (currentPage options) = Some n →
  n ≠ -1 →
  ∃ (options' options'' : object) (p q : promise (option aggregate)),
    retrieve fetch coerced_gt_zero options = Some (options', p) ∧
    retrieve fetch coerced_gt_zero options' = Some (options'', q) ∧
    fetched q
    = window_request (resolveColor options) <$> [n * 10; (n - 1) * 10; (n + 1) * 10] ∧
    prop options'' "page" = VNum (n + 2).
Proof.
  intros target Hn.
  destruct (retrieve_numbered fetch coerced_gt_zero options n target) as (p & Hp & _).
  assert (to_number (currentPage (<["page" := VNum (n + 1)]> options)) = Some (n + 1))
    as target'.
  { unfold currentPage, js_or, prop. rewrite lookup_insert_eq.
    cbn [from_option id truthy].
    destruct (Z.eqb_spec (n + 1) 0); [lia|]. reflexivity. }
  destruct (retrieve_numbered fetch coerced_gt_zero _ _ target')
    as (q & Hq & Hfetched & _).
  eexists _, _, p, q. split; [exact Hp|]. split; [exact Hq|]. split.
  - rewrite Hfetched, !insert_insert_eq, !formApiRequest_page.
    cbn [fmap list_fmap]. unfold window_request.
    replace (n + 1 - 1) with n by lia. replace (n + 1 + 1 - 1) with (n + 1) by lia.
    reflexivity.
  - unfold prop. rewrite lookup_insert_eq. cbn [from_option id].
    replace (n + 1 + 1) with (n + 2) by lia. reflexivity.
Qed.

Lemma retrieve_again_advances_the_page_witness :
  to_number (currentPage {["page" := VNum 2]}) = Some 2 ∧
  2 ≠ -1 ∧
  ∃ (options' options'' : object) (p q : promise (option aggregate)),
    retrieve healthy_source never_positive {["page" := VNum 2]} = Some (options', p) ∧
    retrieve healthy_source never_positive options' = Some (options'', q) ∧
    fetched q
    = window_request (resolveColor {["page" := VNum 2]})
      <$> [2 * 10; (2 - 1) * 10; (2 + 1) * 10] ∧
    prop options'' "page" = VNum (2 + 2).
Proof.
  split; [reflexivity|]. split; [lia|].
  apply (retrieve_again_advances_the_page healthy_source never_positive
           {["page" := VNum 2]} 2); [reflexivity | lia].
Defined.
